(** * PulseFeedback: the creator-feedback route and the creator dashboard

    A shallow embedding of
    - [app/api/creator-feedback/route.ts] (the [POST] handler),
    - [supabase/migrations/add_creator_feedback.sql] (the table it inserts into),
    - the view-model part of [app/pulse/dashboard/DashboardContent.tsx]
      (fetching, the handlers, the derived collections, pagination and the
      hot-posts section),
    followed by the properties established about them. *)

From Stdlib Require Import Ascii String.
From Stdlib Require Import Bool Arith ZArith NArith Lia List Permutation Sorted.
Import ListNotations.

Set Implicit Arguments.
Set Warnings "-register-all".

(** ** JavaScript strings

    A JavaScript string is a sequence of UTF-16 code units.  Only the
    operations the sources call are embedded: [String.prototype.trim],
    [String.prototype.includes] and strict equality. *)
Module JS.

Definition jsstring := list N.

(** Literals of the sources are ASCII; [js] turns one into its code units. *)
Definition js (s : string) : jsstring :=
  List.map N_of_ascii (list_ascii_of_string s).

Fixpoint jsstring_eqb (s t : jsstring) : bool :=
  match s, t with
  | [], [] => true
  | c :: s', d :: t' => N.eqb c d && jsstring_eqb s' t'
  | _, _ => false
  end.

(** ECMAScript WhiteSpace and LineTerminator code points, the ones
    [trim] strips: TAB, LF, VT, FF, CR, SP, NBSP, U+1680, U+2000..U+200A,
    U+2028, U+2029, U+202F, U+205F, U+3000 and U+FEFF. *)
Definition isWhiteSpace (c : N) : bool :=
  (existsb (N.eqb c)
     [9; 10; 11; 12; 13; 32; 160; 5760; 8232; 8233; 8239; 8287; 12288; 65279]
   || (N.leb 8192 c && N.leb c 8202))%N.

Fixpoint trimStart (s : jsstring) : jsstring :=
  match s with
  | [] => []
  | c :: s' => if isWhiteSpace c then trimStart s' else s
  end.

Definition trimEnd (s : jsstring) : jsstring := rev (trimStart (rev s)).

Definition trim (s : jsstring) : jsstring := trimEnd (trimStart s).

Fixpoint startsWith (pat s : jsstring) : bool :=
  match pat, s with
  | [], _ => true
  | p :: pat', c :: s' => N.eqb p c && startsWith pat' s'
  | _ :: _, [] => false
  end.

(** [s.includes(pat)] *)
Fixpoint includes (s pat : jsstring) : bool :=
  startsWith pat s
  || match s with
     | [] => false
     | _ :: s' => includes s' pat
     end.

(** A string is truthy when it is not empty. *)
Definition truthy_string (s : jsstring) : bool :=
  match s with
  | [] => false
  | _ :: _ => true
  end.

(** The values [JSON.parse] can produce.  A number is looked at by the
    route only for its truthiness, so it is kept as an integer.  An object
    is the list of its members in source order; as in [JSON.parse], the
    last member with a given name is the one a property read sees. *)
Inductive JsValue : Type :=
| JNull
| JBool (b : bool)
| JNumber (n : Z)
| JString (s : jsstring)
| JArray (items : list JsValue)
| JObject (members : list (jsstring * JsValue)).

(** A value read from a property: [None] is [undefined]. *)
Definition Field := option JsValue.

Fixpoint lookup_member (k : jsstring) (ms : list (jsstring * JsValue)) : Field :=
  match ms with
  | [] => None
  | (k', v) :: ms' =>
      match lookup_member k ms' with
      | Some w => Some w
      | None => if jsstring_eqb k k' then Some v else None
      end
  end.

(** [v.k] for one of the names the route destructures; none of them is a
    property of a primitive wrapper or of [Array.prototype]. *)
Definition get (v : JsValue) (k : jsstring) : Field :=
  match v with
  | JObject ms => lookup_member k ms
  | _ => None
  end.

(** ToBoolean *)
Definition truthy (f : Field) : bool :=
  match f with
  | None => false
  | Some JNull => false
  | Some (JBool b) => b
  | Some (JNumber n) => negb (Z.eqb n 0)
  | Some (JString s) => truthy_string s
  | Some (JArray _) => true
  | Some (JObject _) => true
  end.

(** [typeof f === 'string'] *)
Definition typeof_string (f : Field) : bool :=
  match f with
  | Some (JString _) => true
  | _ => false
  end.

(** The string behind a field whose [typeof] is ['string']. *)
Definition string_of (f : Field) : jsstring :=
  match f with
  | Some (JString s) => s
  | _ => []
  end.

(** What a [throw] carries, as far as a handler reads it: [error?.message]
    when it is a string. *)
Record Thrown : Type := { thrown_message : option jsstring }.

(** An awaited call either returns or throws. *)
Inductive Completion (A : Type) : Type :=
| Normal (a : A)
| Throw (e : Thrown).

Arguments Normal {A} a.
Arguments Throw {A} e.

Definition bind {A B : Type} (c : Completion A) (k : A -> Completion B)
  : Completion B :=
  match c with
  | Normal a => k a
  | Throw e => Throw e
  end.

End JS.

Import JS.

Declare Scope completion_scope.
Delimit Scope completion_scope with completion.
Notation "x <- c ;; k" := (bind c (fun x => k))
  (at level 61, c at next level, right associativity) : completion_scope.

(** ** The [creator_feedback] table (add_creator_feedback.sql) *)
Module Table.

(** The object handed to [.insert(...)]. *)
Record Insert : Type := {
  creator_id : jsstring;
  company_id : jsstring;
  user_id : option jsstring;
  category : jsstring;
  subject : option jsstring;
  message : jsstring
}.

End Table.

Module Row.

(** A row of [creator_feedback]. *)
Record t : Type := {
  id : jsstring;
  creator_id : jsstring;
  company_id : jsstring;
  user_id : option jsstring;
  category : jsstring;
  subject : option jsstring;
  message : jsstring;
  created_at : Z
}.

End Row.

Module Supabase.

(** What the database contributes to one insert: a failure of its own
    (connection, foreign key, policy), or the defaults of the [id] and
    [created_at] columns. *)
Record Database : Type := {
  fault : option jsstring;
  gen_random_uuid : jsstring;
  now : Z
}.

(** The result of [.insert(...).select().single()]: [{ data, error }] with
    exactly one of the two set. *)
Inductive Result : Type :=
| Data (data : Row.t)
| Error (error : jsstring).

(** [CHECK (category IN ('bug', 'feedback', 'idea', 'other'))] *)
Definition category_check (c : jsstring) : bool :=
  existsb (jsstring_eqb c) [js "bug"; js "feedback"; js "idea"; js "other"].

Definition insert (db : Database) (r : Table.Insert) : Result :=
  match fault db with
  | Some e => Error e
  | None =>
      if category_check (Table.category r) then
        Data {| Row.id := gen_random_uuid db;
                Row.creator_id := Table.creator_id r;
                Row.company_id := Table.company_id r;
                Row.user_id := Table.user_id r;
                Row.category := Table.category r;
                Row.subject := Table.subject r;
                Row.message := Table.message r;
                Row.created_at := now db |}
      else Error (js "violates check constraint")
  end.

End Supabase.

(** ** app/api/creator-feedback/route.ts *)
Module Route.

Definition ALLOWED_CATEGORIES : list jsstring :=
  [js "bug"; js "feedback"; js "idea"; js "other"].

(** [ALLOWED_CATEGORIES.includes(category)]: strict equality with one of
    the strings. *)
Definition ALLOWED_CATEGORIES_includes (category : Field) : bool :=
  match category with
  | Some (JString s) => existsb (jsstring_eqb s) ALLOWED_CATEGORIES
  | _ => false
  end.

(** The value [requireCreator] resolves to. *)
Record Auth : Type := {
  companyId : option jsstring;
  userId : option jsstring
}.

Record Creator : Type := { creator_id : jsstring }.

(** The collaborators of the route, as one call of it meets them. *)
Record World : Type := {
  requireCreator : Completion Auth;
  getCreatorForCompany : jsstring -> Completion (option Creator);
  supabaseAdmin : Supabase.Database
}.

(** The request: [request.json()] returns the parsed body or throws. *)
Record NextRequest : Type := { json : Completion JsValue }.

Inductive Body : Type :=
| ErrorBody (error : jsstring)
| DataBody (data : Row.t).

Record NextResponse : Type := {
  status : Z;
  body : Body;
  console_error : list jsstring
}.

Definition respond (logged : list jsstring) (b : Body) (st : Z) : NextResponse :=
  {| status := st; body := b; console_error := logged |}.

(** [!auth.companyId] *)
Definition companyId_missing (auth : Auth) : bool :=
  match companyId auth with
  | Some s => negb (truthy_string s)
  | None => true
  end.

Definition companyId_of (auth : Auth) : jsstring :=
  match companyId auth with
  | Some s => s
  | None => []
  end.

(** [body ?? {}] *)
Definition nullish_default (b : JsValue) : JsValue :=
  match b with
  | JNull => JObject []
  | _ => b
  end.

(** [!category || !ALLOWED_CATEGORIES.includes(category)] *)
Definition category_rejected (category : Field) : bool :=
  negb (truthy category) || negb (ALLOWED_CATEGORIES_includes category).

(** [!message || typeof message !== 'string' || !message.trim()] *)
Definition message_rejected (message : Field) : bool :=
  negb (truthy message)
  || negb (typeof_string message)
  || negb (truthy_string (trim (string_of message))).

(** [subject?.trim()]: [undefined] on a nullish subject, the trimmed string
    on a string, and a TypeError on anything else, which has no callable
    [trim]. *)
Definition subject_trim (subject : Field) : Completion (option jsstring) :=
  match subject with
  | None => Normal None
  | Some JNull => Normal None
  | Some (JString s) => Normal (Some (trim s))
  | Some _ => Throw {| thrown_message := Some (js "subject?.trim is not a function") |}
  end.

(** [x || null] on an optional string *)
Definition or_null (x : option jsstring) : option jsstring :=
  match x with
  | Some s => if truthy_string s then Some s else None
  | None => None
  end.

(** The [try] block. *)
Definition POST_try (w : World) (request : NextRequest) : Completion NextResponse :=
  (auth <- requireCreator w ;;
  if companyId_missing auth then
    Normal (respond [] (ErrorBody (js "Company ID missing")) 500)
  else
    body <- json request ;;
    let body := nullish_default body in
    let category := get body (js "category") in
    let message := get body (js "message") in
    let subject := get body (js "subject") in
    if category_rejected category then
      Normal (respond [] (ErrorBody (js "Invalid category")) 400)
    else if message_rejected message then
      Normal (respond [] (ErrorBody (js "Message is required")) 400)
    else
      creator <- getCreatorForCompany w (companyId_of auth) ;;
      match creator with
      | None =>
          Normal (respond [] (ErrorBody (js "Creator not found for company")) 404)
      | Some creator =>
          trimmed <- subject_trim subject ;;
          match Supabase.insert (supabaseAdmin w)
                  {| Table.creator_id := creator_id creator;
                     Table.company_id := companyId_of auth;
                     Table.user_id := userId auth;
                     Table.category := string_of category;
                     Table.subject := or_null trimmed;
                     Table.message := trim (string_of message) |} with
          | Supabase.Error _ =>
              Normal (respond [js "Error inserting creator feedback:"]
                        (ErrorBody (js "Failed to submit feedback")) 500)
          | Supabase.Data data =>
              Normal (respond [] (DataBody data) 201)
          end
      end)%completion.

(** The [catch] block. *)
Definition POST_catch (error : Thrown) : NextResponse :=
  let message :=
    match thrown_message error with
    | Some m => m
    | None => []
    end in
  if includes message (js "Unauthorized") then
    respond [js "Error handling POST /api/creator-feedback:"]
      (ErrorBody (js "Unauthorized")) 401
  else
    respond [js "Error handling POST /api/creator-feedback:"]
      (ErrorBody (js "Internal server error")) 500.

Definition POST (w : World) (request : NextRequest) : NextResponse :=
  match POST_try w request with
  | Normal response => response
  | Throw error => POST_catch error
  end.

End Route.

(** ** Array methods used by the dashboard *)
Module JSArray.

Section Methods.

Variable A : Type.

(** The clamping [Array.prototype.slice] applies to each bound: a negative
    bound counts from the end, and both are kept within [0, len]. *)
Definition relative_index (len k : Z) : Z :=
  if (k <? 0)%Z then Z.max (len + k) 0 else Z.min k len.

(** [l.slice(start, end)] *)
Definition slice (l : list A) (start end_ : Z) : list A :=
  let len := Z.of_nat (length l) in
  let k := relative_index len start in
  let final := relative_index len end_ in
  firstn (Z.to_nat (final - k)) (skipn (Z.to_nat k) l).

Variable compareFn : A -> A -> Z.

(** [Array.prototype.sort] is a stable sort: [a] is placed after [b] only
    when [compareFn a b > 0].  Its result under a consistent comparator is
    the one of this stable insertion sort. *)
Fixpoint insert_sorted (x : A) (l : list A) : list A :=
  match l with
  | [] => [x]
  | y :: l' =>
      if (compareFn x y <=? 0)%Z then x :: l else y :: insert_sorted x l'
  end.

Definition sort (l : list A) : list A := fold_right insert_sorted [] l.

(** [a] is not placed after [b]. *)
Definition before (a b : A) : Prop := (compareFn a b <= 0)%Z.

End Methods.

End JSArray.

(** ** app/pulse/dashboard/DashboardContent.tsx *)
Module Dashboard.

Import JSArray.

(** Modelled from the spec: the [Reply] type of [lib/supabase], which is not
    among the sources: id, text, public/private visibility flag, parent
    message reference. *)
Record Reply : Type := {
  reply_id : jsstring;
  reply_text : jsstring;
  is_public : bool;
  message_id : jsstring
}.

Inductive Tag : Type := question | feedback | confession.

(** Modelled from the spec: the [Message] type of [lib/supabase], which is
    not among the sources (id, text, tag, optional product category,
    reviewed flag, creation timestamp), extended as
    [MessageWithReactions] does with the optional [reply] and
    [reaction_count].  [created_at] holds [new Date(created_at).getTime()],
    the only way the dashboard reads the column, which is a timestamp of
    the database and so parses to a time. *)
Record MessageWithReactions : Type := {
  id : jsstring;
  text : jsstring;
  tag : Tag;
  product_category : option jsstring;
  reviewed : bool;
  created_at : Z;
  reply : option (list Reply);
  reaction_count : option Z
}.

Inductive TabType : Type := overview | inbox | reviewed_tab.

Record State : Type := {
  messages : list MessageWithReactions;
  allMessages : list MessageWithReactions;
  isLoading : bool;
  activeTab : TabType;
  filter_ : option Tag;
  productCategoryFilter : option jsstring;
  currentPage : Z;
  isSupportModalOpen : bool;
  supportCategory : jsstring;
  supportSubject : jsstring;
  supportMessage : jsstring;
  supportSubmitting : bool;
  supportSuccess : option jsstring;
  supportError : option jsstring
}.

Definition MESSAGES_PER_PAGE : Z := 10.

(** The state of the first render. *)
Definition initial : State :=
  {| messages := []; allMessages := []; isLoading := true;
     activeTab := overview; filter_ := None; productCategoryFilter := None;
     currentPage := 1; isSupportModalOpen := false;
     supportCategory := js "bug"; supportSubject := []; supportMessage := [];
     supportSubmitting := false; supportSuccess := None; supportError := None |}.

(** *** State setters *)

Definition setMessages (v : list MessageWithReactions) (s : State) : State :=
  {| messages := v; allMessages := allMessages s; isLoading := isLoading s;
     activeTab := activeTab s; filter_ := filter_ s;
     productCategoryFilter := productCategoryFilter s;
     currentPage := currentPage s; isSupportModalOpen := isSupportModalOpen s;
     supportCategory := supportCategory s; supportSubject := supportSubject s;
     supportMessage := supportMessage s;
     supportSubmitting := supportSubmitting s;
     supportSuccess := supportSuccess s; supportError := supportError s |}.

Definition setAllMessages (v : list MessageWithReactions) (s : State) : State :=
  {| messages := messages s; allMessages := v; isLoading := isLoading s;
     activeTab := activeTab s; filter_ := filter_ s;
     productCategoryFilter := productCategoryFilter s;
     currentPage := currentPage s; isSupportModalOpen := isSupportModalOpen s;
     supportCategory := supportCategory s; supportSubject := supportSubject s;
     supportMessage := supportMessage s;
     supportSubmitting := supportSubmitting s;
     supportSuccess := supportSuccess s; supportError := supportError s |}.

Definition setIsLoading (v : bool) (s : State) : State :=
  {| messages := messages s; allMessages := allMessages s; isLoading := v;
     activeTab := activeTab s; filter_ := filter_ s;
     productCategoryFilter := productCategoryFilter s;
     currentPage := currentPage s; isSupportModalOpen := isSupportModalOpen s;
     supportCategory := supportCategory s; supportSubject := supportSubject s;
     supportMessage := supportMessage s;
     supportSubmitting := supportSubmitting s;
     supportSuccess := supportSuccess s; supportError := supportError s |}.

Definition setActiveTab (v : TabType) (s : State) : State :=
  {| messages := messages s; allMessages := allMessages s;
     isLoading := isLoading s; activeTab := v; filter_ := filter_ s;
     productCategoryFilter := productCategoryFilter s;
     currentPage := currentPage s; isSupportModalOpen := isSupportModalOpen s;
     supportCategory := supportCategory s; supportSubject := supportSubject s;
     supportMessage := supportMessage s;
     supportSubmitting := supportSubmitting s;
     supportSuccess := supportSuccess s; supportError := supportError s |}.

Definition setCurrentPage (v : Z) (s : State) : State :=
  {| messages := messages s; allMessages := allMessages s;
     isLoading := isLoading s; activeTab := activeTab s; filter_ := filter_ s;
     productCategoryFilter := productCategoryFilter s;
     currentPage := v; isSupportModalOpen := isSupportModalOpen s;
     supportCategory := supportCategory s; supportSubject := supportSubject s;
     supportMessage := supportMessage s;
     supportSubmitting := supportSubmitting s;
     supportSuccess := supportSuccess s; supportError := supportError s |}.

Definition setSupportSubject (v : jsstring) (s : State) : State :=
  {| messages := messages s; allMessages := allMessages s;
     isLoading := isLoading s; activeTab := activeTab s; filter_ := filter_ s;
     productCategoryFilter := productCategoryFilter s;
     currentPage := currentPage s; isSupportModalOpen := isSupportModalOpen s;
     supportCategory := supportCategory s; supportSubject := v;
     supportMessage := supportMessage s;
     supportSubmitting := supportSubmitting s;
     supportSuccess := supportSuccess s; supportError := supportError s |}.

Definition setSupportMessage (v : jsstring) (s : State) : State :=
  {| messages := messages s; allMessages := allMessages s;
     isLoading := isLoading s; activeTab := activeTab s; filter_ := filter_ s;
     productCategoryFilter := productCategoryFilter s;
     currentPage := currentPage s; isSupportModalOpen := isSupportModalOpen s;
     supportCategory := supportCategory s; supportSubject := supportSubject s;
     supportMessage := v;
     supportSubmitting := supportSubmitting s;
     supportSuccess := supportSuccess s; supportError := supportError s |}.

Definition setSupportSubmitting (v : bool) (s : State) : State :=
  {| messages := messages s; allMessages := allMessages s;
     isLoading := isLoading s; activeTab := activeTab s; filter_ := filter_ s;
     productCategoryFilter := productCategoryFilter s;
     currentPage := currentPage s; isSupportModalOpen := isSupportModalOpen s;
     supportCategory := supportCategory s; supportSubject := supportSubject s;
     supportMessage := supportMessage s;
     supportSubmitting := v;
     supportSuccess := supportSuccess s; supportError := supportError s |}.

Definition setSupportSuccess (v : option jsstring) (s : State) : State :=
  {| messages := messages s; allMessages := allMessages s;
     isLoading := isLoading s; activeTab := activeTab s; filter_ := filter_ s;
     productCategoryFilter := productCategoryFilter s;
     currentPage := currentPage s; isSupportModalOpen := isSupportModalOpen s;
     supportCategory := supportCategory s; supportSubject := supportSubject s;
     supportMessage := supportMessage s;
     supportSubmitting := supportSubmitting s;
     supportSuccess := v; supportError := supportError s |}.

Definition setSupportError (v : option jsstring) (s : State) : State :=
  {| messages := messages s; allMessages := allMessages s;
     isLoading := isLoading s; activeTab := activeTab s; filter_ := filter_ s;
     productCategoryFilter := productCategoryFilter s;
     currentPage := currentPage s; isSupportModalOpen := isSupportModalOpen s;
     supportCategory := supportCategory s; supportSubject := supportSubject s;
     supportMessage := supportMessage s;
     supportSubmitting := supportSubmitting s;
     supportSuccess := supportSuccess s; supportError := v |}.

(** *** What a handler does besides updating the state *)
Inductive Effect : Type :=
| console_error (label : jsstring) (error : Thrown)
| alert (message : jsstring).

(** A handler runs from a state to a state, leaves a trace of effects, and
    returns or throws. *)
Definition M (A : Type) : Type := State -> State * list Effect * Completion A.

Definition ret {A : Type} (a : A) : M A := fun s => (s, [], Normal a).

Definition throw {A : Type} (e : Thrown) : M A := fun s => (s, [], Throw e).

Definition mbind {A B : Type} (m : M A) (k : A -> M B) : M B :=
  fun s =>
    match m s with
    | (s1, t1, Normal a) =>
        match k a s1 with
        | (s2, t2, r) => (s2, t1 ++ t2, r)
        end
    | (s1, t1, Throw e) => (s1, t1, Throw e)
    end.

(** [await c] *)
Definition await {A : Type} (c : Completion A) : M A := fun s => (s, [], c).

Definition set (f : State -> State) : M unit := fun s => (f s, [], Normal tt).

Definition emit (e : Effect) : M unit := fun s => (s, [e], Normal tt).

(** [try { m } catch (error) { h error }] *)
Definition try_catch {A : Type} (m : M A) (h : Thrown -> M A) : M A :=
  fun s =>
    match m s with
    | (s1, t1, Normal a) => (s1, t1, Normal a)
    | (s1, t1, Throw e) =>
        match h e s1 with
        | (s2, t2, r) => (s2, t1 ++ t2, r)
        end
    end.

(** [try { m } finally { f }], for an [f] that only updates the state. *)
Definition finally {A : Type} (m : M A) (f : State -> State) : M A :=
  fun s =>
    match m s with
    | (s1, t1, r) => (f s1, t1, r)
    end.

(** [new Error(message)] *)
Definition Error (message : jsstring) : Thrown :=
  {| thrown_message := Some message |}.

(** A [fetch] that resolved: [response.ok], and [response.json()] read as
    far as the caller destructures it. *)
Record Response (A : Type) : Type := {
  ok : bool;
  response_json : Completion A
}.

(** The endpoints as one run of a handler meets them.  [fetch] rejects on
    a network failure.  [/api/feedback] answers [{ data }], of which [None]
    is a missing or null [data]; [/api/reactions] is read through
    [data?.length]; [/api/creator-feedback] through [payload?.error]. *)
Record Network : Type := {
  GET_feedback_filtered :
    jsstring -> option Tag -> option jsstring ->
    Completion (Response (option (list MessageWithReactions)));
  GET_feedback_all :
    jsstring -> Completion (Response (option (list MessageWithReactions)));
  GET_reactions : jsstring -> Completion (Response (option Z));
  PATCH_feedback : jsstring -> bool -> Completion (Response unit);
  DELETE_feedback : jsstring -> Completion (Response unit);
  POST_replies : jsstring -> jsstring -> bool -> Completion (Response unit);
  PATCH_replies : jsstring -> bool -> Completion (Response unit);
  POST_creator_feedback :
    jsstring -> option jsstring -> jsstring ->
    Completion (Response (option jsstring))
}.

Declare Scope handler_scope.
Delimit Scope handler_scope with handler.
Notation "x <- c ;; k" := (mbind c (fun x => k))
  (at level 61, c at next level, right associativity) : handler_scope.
Notation "c ;; k" := (mbind c (fun _ => k))
  (at level 61, right associativity) : handler_scope.

Definition get_state : M State := fun s => (s, [], Normal s).

(** [x || 0] on an optional number *)
Definition or_zero (x : option Z) : Z :=
  match x with
  | Some n => n
  | None => 0
  end.

(** [x || []] *)
Definition or_empty {A : Type} (x : option (list A)) : list A :=
  match x with
  | Some l => l
  | None => []
  end.

(** [x || undefined] on a string *)
Definition or_undefined (x : jsstring) : option jsstring :=
  if truthy_string x then Some x else None.

(** [x || fallback] on an optional string *)
Definition or_else (x : option jsstring) (fallback : jsstring) : jsstring :=
  match x with
  | Some s => if truthy_string s then s else fallback
  | None => fallback
  end.

(** [Promise.all]: the results in order, or a rejection.  Which rejection
    wins a race is a matter of timing; the first in list order is taken. *)
Fixpoint Promise_all {A : Type} (ps : list (Completion A)) : Completion (list A) :=
  match ps with
  | [] => Normal []
  | p :: ps' =>
      match p, Promise_all ps' with
      | Throw e, _ => Throw e
      | Normal _, Throw e => Throw e
      | Normal a, Normal l => Normal (a :: l)
      end
  end.

(** [{ ...message, reaction_count: reactionCount }] *)
Definition with_reaction_count (message : MessageWithReactions) (reactionCount : Z)
  : MessageWithReactions :=
  {| id := id message; text := text message; tag := tag message;
     product_category := product_category message;
     reviewed := reviewed message; created_at := created_at message;
     reply := reply message; reaction_count := Some reactionCount |}.

(** The comparator handed to [sort]: reaction count descending, then
    [created_at] descending.  Only its sign is used, which the integer
    difference shares with the floating-point one. *)
Definition compareFn (a b : MessageWithReactions) : Z :=
  let reactionDiff := (or_zero (reaction_count b) - or_zero (reaction_count a))%Z in
  if negb (reactionDiff =? 0)%Z then reactionDiff
  else (created_at b - created_at a)%Z.

Section Handlers.

Variable creatorId : jsstring.
Variable network : Network.

Local Open Scope handler_scope.

(** The callback mapped over [allMessagesData]. *)
Definition count_reactions (message : MessageWithReactions)
  : Completion MessageWithReactions :=
  (reactionResponse <- GET_reactions network (id message) ;;
   if ok reactionResponse then
     reactionData <- response_json reactionResponse ;;
     Normal (with_reaction_count message (or_zero reactionData))
   else
     Normal (with_reaction_count message 0))%completion.

Definition fetchMessages : M unit :=
  finally
    (try_catch
       (set (setIsLoading true) ;;
        st <- get_state ;;
        response <- await (GET_feedback_filtered network creatorId
                             (filter_ st) (productCategoryFilter st)) ;;
        if negb (ok response) then throw (Error (js "Failed to fetch messages"))
        else
          data <- await (response_json response) ;;
          set (setMessages (or_empty data)) ;;
          allMessagesResponse <- await (GET_feedback_all network creatorId) ;;
          if ok allMessagesResponse then
            allMessagesData <- await (response_json allMessagesResponse) ;;
            messagesWithReactions <-
              await (Promise_all (map count_reactions (or_empty allMessagesData))) ;;
            let sortedMessages := sort compareFn messagesWithReactions in
            set (setAllMessages sortedMessages)
          else ret tt)
       (fun error => emit (console_error (js "Error fetching messages:") error)))
    (setIsLoading false).

Definition handleSubmitSupportFeedback : M unit :=
  st <- get_state ;;
  if negb (truthy_string (trim (supportMessage st))) then
    set (setSupportError
           (Some (js "Please add some details so we can help effectively.")))
  else
    set (setSupportSubmitting true) ;;
    set (setSupportError None) ;;
    finally
      (try_catch
         (response <- await (POST_creator_feedback network
                               (supportCategory st)
                               (or_undefined (trim (supportSubject st)))
                               (trim (supportMessage st))) ;;
          let payload_error :=
            match response_json response with
            | Normal payload => payload
            | Throw _ => None
            end in
          if negb (ok response) then
            throw (Error (or_else payload_error (js "Failed to submit feedback")))
          else
            set (setSupportSuccess
                   (Some (js "Thanks! Your note is on its way to the Pulse team."))) ;;
            set (setSupportSubject []) ;;
            set (setSupportMessage []))
         (fun error =>
            emit (console_error (js "Error submitting creator feedback:") error) ;;
            set (setSupportError
                   (Some (or_else (thrown_message error)
                            (js "Something went wrong. Please try again."))))))
      (setSupportSubmitting false).

Definition handleMarkReviewed (id : jsstring) (reviewed : bool) : M unit :=
  try_catch
    (response <- await (PATCH_feedback network id reviewed) ;;
     if negb (ok response) then throw (Error (js "Failed to update message"))
     else fetchMessages)
    (fun error =>
       emit (console_error (js "Error updating message:") error) ;;
       emit (alert (js "Failed to update message"))).

Definition handleDelete (id : jsstring) : M unit :=
  try_catch
    (response <- await (DELETE_feedback network id) ;;
     if negb (ok response) then throw (Error (js "Failed to delete message"))
     else fetchMessages)
    (fun error =>
       emit (console_error (js "Error deleting message:") error) ;;
       emit (alert (js "Failed to delete message"))).

Definition handleReply (messageId replyText : jsstring) (isPublic : bool) : M unit :=
  try_catch
    (response <- await (POST_replies network messageId replyText isPublic) ;;
     if negb (ok response) then throw (Error (js "Failed to submit reply"))
     else fetchMessages)
    (fun error =>
       emit (console_error (js "Error submitting reply:") error) ;;
       emit (alert (js "Failed to submit reply"))).

Definition handleToggleReplyVisibility (replyId : jsstring) (isPublic : bool) : M unit :=
  try_catch
    (response <- await (PATCH_replies network replyId isPublic) ;;
     if negb (ok response) then throw (Error (js "Failed to update reply visibility"))
     else fetchMessages)
    (fun error =>
       emit (console_error (js "Error updating reply visibility:") error) ;;
       emit (alert (js "Failed to update reply visibility"))).

End Handlers.

(** *** Analytics and computed values *)

(** [!m.reply || m.reply.length === 0] *)
Definition has_no_reply (m : MessageWithReactions) : bool :=
  match reply m with
  | None => true
  | Some r => Nat.eqb (length r) 0
  end.

(** [m.reply && m.reply.length > 0] *)
Definition has_reply (m : MessageWithReactions) : bool :=
  match reply m with
  | None => false
  | Some r => Nat.ltb 0 (length r)
  end.

Definition totalMessages (s : State) : nat := length (messages s).

Definition pendingMessages (s : State) : list MessageWithReactions :=
  filter (fun m => negb (reviewed m) && has_no_reply m) (messages s).

Definition inboxMessages (s : State) : list MessageWithReactions :=
  filter has_no_reply (messages s).

Definition reviewedMessages (s : State) : list MessageWithReactions :=
  filter (fun m => has_reply m || reviewed m) (messages s).

Definition repliedMessages (s : State) : nat :=
  length (filter has_reply (messages s)).

Definition getFilteredMessages (s : State) : list MessageWithReactions :=
  match activeTab s with
  | inbox => inboxMessages s
  | reviewed_tab => reviewedMessages s
  | overview => messages s
  end.

Definition filteredMessages (s : State) : list MessageWithReactions :=
  getFilteredMessages s.

(** [Math.ceil(n / d)] for integers [n] and [d > 0]: the floating-point
    quotient of a list length by ten lies on the same side of every
    integer as the exact one. *)
Definition Math_ceil_div (n d : Z) : Z := (- ((- n) / d))%Z.

Definition totalPages (s : State) : Z :=
  Math_ceil_div (Z.of_nat (length (filteredMessages s))) MESSAGES_PER_PAGE.

Definition paginatedMessages (s : State) : list MessageWithReactions :=
  slice (filteredMessages s)
    ((currentPage s - 1) * MESSAGES_PER_PAGE)%Z
    (currentPage s * MESSAGES_PER_PAGE)%Z.

(** The tab buttons: [setActiveTab(tab); setCurrentPage(1)]. *)
Definition onClick_tab (tab : TabType) (s : State) : State :=
  setCurrentPage 1 (setActiveTab tab s).

(** The pagination buttons:
    [setCurrentPage(p => Math.max(1, p - 1))] and
    [setCurrentPage(p => Math.min(totalPages, p + 1))]. *)
Definition onClick_previous (s : State) : State :=
  setCurrentPage (Z.max 1 (currentPage s - 1)) s.

Definition onClick_next (s : State) : State :=
  setCurrentPage (Z.min (totalPages s) (currentPage s + 1)) s.

(** [m => (m.reaction_count || 0) >= 5] *)
Definition is_hot (m : MessageWithReactions) : bool :=
  (5 <=? or_zero (reaction_count m))%Z.

(** The cards of the Hot Posts section:
    [allMessages.filter(...).slice(0, 4)]. *)
Definition hotPosts (s : State) : list MessageWithReactions :=
  slice (filter is_hot (allMessages s)) 0 4.

(** The section is rendered on the overview tab when some message is hot. *)
Definition hotPostsSection (s : State) : option (list MessageWithReactions) :=
  match activeTab s with
  | overview =>
      if Nat.ltb 0 (length (filter is_hot (allMessages s)))
      then Some (hotPosts s) else None
  | _ => None
  end.

End Dashboard.

(** ** Vocabulary of the properties *)
Module Spec.

Import Route.

(** The body carries a category that is one of the allowed strings. *)
Definition category_allowed (body : JsValue) : Prop :=
  exists s, get body (js "category") = Some (JString s)
            /\ In s ALLOWED_CATEGORIES.

(** A string that is empty or made of whitespace only. *)
Definition blank (s : jsstring) : bool := forallb isWhiteSpace s.

(** The body carries a message that is a string with some visible
    character. *)
Definition message_present (body : JsValue) : Prop :=
  exists s, get body (js "message") = Some (JString s) /\ blank s = false.

Definition starts_with_whitespace (s : jsstring) : bool :=
  match s with
  | c :: _ => isWhiteSpace c
  | [] => false
  end.

Definition ends_with_whitespace (s : jsstring) : bool :=
  starts_with_whitespace (rev s).

(** No leading and no trailing whitespace. *)
Definition tidy (s : jsstring) : bool :=
  negb (starts_with_whitespace s) && negb (ends_with_whitespace s).

(** The subject column for a submitted subject that is absent, [null] or a
    string: the trimmed string, or [NULL] when nothing is left. *)
Definition stored_subject (subject : Field) : option jsstring :=
  match subject with
  | Some (JString s) => if blank s then None else Some (trim s)
  | _ => None
  end.

(** A subject [subject?.trim()] accepts. *)
Definition subject_trimmable (subject : Field) : Prop :=
  subject = None \/ subject = Some JNull \/ exists s, subject = Some (JString s).

End Spec.

(** ** Sample requests and worlds *)
Module Sample.

Import Route.

Definition creator : Creator := {| creator_id := js "creator-1" |}.

Definition database : Supabase.Database :=
  {| Supabase.fault := None;
     Supabase.gen_random_uuid := js "0b5f6c1e-0000-4000-8000-000000000001";
     Supabase.now := 1700000000000 |}.

(** A signed-in creator of company [biz_1] with a creator record. *)
Definition signed_in : World :=
  {| requireCreator :=
       Normal {| companyId := Some (js "biz_1"); userId := Some (js "user_1") |};
     getCreatorForCompany := fun _ => Normal (Some creator);
     supabaseAdmin := database |}.

(** [requireCreator] rejects the caller. *)
Definition signed_out : World :=
  {| requireCreator :=
       Throw {| thrown_message := Some (js "Unauthorized: creator access required") |};
     getCreatorForCompany := fun _ => Normal (Some creator);
     supabaseAdmin := database |}.

(** [requireCreator] fails without naming the cause as an authorization
    one. *)
Definition auth_unreachable : World :=
  {| requireCreator := Throw {| thrown_message := Some (js "fetch failed") |};
     getCreatorForCompany := fun _ => Normal (Some creator);
     supabaseAdmin := database |}.

Definition request_of (body : JsValue) : NextRequest :=
  {| json := Normal body |}.

Definition unknown_category : JsValue :=
  JObject [(js "category", JString (js "praise"));
           (js "message", JString (js "hello"))].

Definition blank_message : JsValue :=
  JObject [(js "category", JString (js "bug"));
           (js "message", JString (js "   "))].

Definition padded : JsValue :=
  JObject [(js "category", JString (js "idea"));
           (js "subject", JString (js "  "));
           (js "message", JString (js " dark mode "))].

Definition plain : JsValue :=
  JObject [(js "category", JString (js "bug"));
           (js "subject", JString (js "Login"));
           (js "message", JString (js "It fails"))].

End Sample.

(** ** Vocabulary of the dashboard properties *)
Module DashboardSpec.

Import JSArray Dashboard.

(** The reaction count a message is ranked by. *)
Definition reactions (m : MessageWithReactions) : Z :=
  or_zero (reaction_count m).


(** [a] may stand before [b] in the ranking: more reactions, or as many
    and not older. *)
Definition ranked_before (a b : MessageWithReactions) : Prop :=
  (reactions a > reactions b
   \/ (reactions a = reactions b /\ created_at a >= created_at b))%Z.

(** Ranked at every pair of positions: the earlier message may stand
    before the later one. *)
Definition ranked (l : list MessageWithReactions) : Prop :=
  forall i j a b,
    (i < j)%nat -> nth_error l i = Some a -> nth_error l j = Some b ->
    ranked_before a b.


(** The messages fully tied at [c] reactions and creation time [t]. *)
Definition tied (c t : Z) (m : MessageWithReactions) : bool :=
  (reactions m =? c)%Z && (created_at m =? t)%Z.

(** The page displayed when the current page is [p]. *)
Definition page (s : State) (p : Z) : list MessageWithReactions :=
  paginatedMessages (setCurrentPage p s).

(** The page numbers [1 .. totalPages]. *)
Definition pages (s : State) : list Z :=
  map Z.of_nat (seq 1 (Z.to_nat (totalPages s))).

(** The error a handler meets when its request fails: the rejection of
    [fetch], or the [Error] it throws itself on a response that is not
    ok. *)
Definition request_failure {A : Type} (c : Completion (Response A))
    (message : jsstring) : option Thrown :=
  match c with
  | Throw e => Some e
  | Normal response => if ok response then None else Some (Error message)
  end.

(** The same for the support form, whose [Error] carries the [error] of the
    payload when there is one. *)
Definition submit_failure (c : Completion (Response (option jsstring)))
  : option Thrown :=
  match c with
  | Throw e => Some e
  | Normal response =>
      if ok response then None
      else Some (Error (or_else
                          match response_json response with
                          | Normal payload => payload
                          | Throw _ => None
                          end
                          (js "Failed to submit feedback")))
  end.

Definition is_alert (e : Effect) : bool :=
  match e with
  | alert _ => true
  | console_error _ _ => false
  end.

End DashboardSpec.

(** ** Sample dashboards *)
Module DashboardSample.

Import JSArray Dashboard.

Local Open Scope Z_scope.

Definition message_ (name : string) (count : option Z) (at_ : Z)
    (reviewed_ : bool) (reply_ : option (list Reply)) : MessageWithReactions :=
  {| id := js name; text := js "hi"; tag := question;
     product_category := None; reviewed := reviewed_; created_at := at_;
     reply := reply_; reaction_count := count |}.

Definition a_reply : Reply :=
  {| reply_id := js "r1"; reply_text := js "thanks"; is_public := true;
     message_id := js "m" |}.

(** Five messages, each with ten reactions, newest first. *)
Definition five_hot : list MessageWithReactions :=
  [message_ "m1" (Some 10) 50 false None;
   message_ "m2" (Some 10) 40 false None;
   message_ "m3" (Some 10) 30 false None;
   message_ "m4" (Some 10) 20 false None;
   message_ "m5" (Some 10) 10 false None].

Definition five_hot_state : State := setAllMessages five_hot initial.

Definition unsorted : list MessageWithReactions :=
  [message_ "a" (Some 1) 30 false None;
   message_ "b" (Some 7) 10 false None;
   message_ "c" (Some 7) 20 false None;
   message_ "d" None 40 false None;
   message_ "e" (Some 7) 10 false None].

(** One message per tab situation: untouched, reviewed by hand, replied. *)
Definition mixed : list MessageWithReactions :=
  [message_ "new" None 3 false None;
   message_ "seen" None 2 true (Some []);
   message_ "answered" None 1 false (Some [a_reply])].

Definition mixed_state : State := setMessages mixed initial.

(** Twenty-three messages, named by their position. *)
Definition twenty_three : list MessageWithReactions :=
  map (fun i => message_ "m" None (Z.of_nat i) false None) (seq 0%nat 23%nat).

Definition long_state : State := setMessages twenty_three initial.

Definition rejected {A : Type} : Completion (Response A) :=
  Throw {| thrown_message := Some (js "Failed to fetch") |}.

(** Every request is rejected. *)
Definition offline : Network :=
  {| GET_feedback_filtered := fun _ _ _ => rejected;
     GET_feedback_all := fun _ => rejected;
     GET_reactions := fun _ => rejected;
     PATCH_feedback := fun _ _ => rejected;
     DELETE_feedback := fun _ => rejected;
     POST_replies := fun _ _ _ => rejected;
     PATCH_replies := fun _ _ => rejected;
     POST_creator_feedback := fun _ _ _ => rejected |}.

Definition drafted : State := setSupportMessage (js "It fails") initial.

End DashboardSample.

(** ** The rest of the dashboard view-model *)
Module DashboardView.

Import JSArray Dashboard.

Local Open Scope Z_scope.

(** *** Analytics that read the clock; [now] is [new Date().getTime()]. *)

Definition oneWeekAgo (now : Z) : Z := now - 7 * 24 * 60 * 60 * 1000.

Definition threeDaysAgo (now : Z) : Z := now - 3 * 24 * 60 * 60 * 1000.

Definition thisWeekMessages (now : Z) (s : State) : nat :=
  length (filter (fun m => oneWeekAgo now <=? created_at m) (messages s)).

Definition oldUnansweredMessages (now : Z) (s : State)
  : list MessageWithReactions :=
  filter (fun m =>
            let hasNoReply := has_no_reply m in
            let isOld := created_at m <? threeDaysAgo now in
            hasNoReply && isOld && negb (reviewed m))
         (messages s).

(** *** The pagination footer *)

(** "Showing [from] to [to] of [n] messages" *)
Definition showing_from (s : State) : Z :=
  (currentPage s - 1) * MESSAGES_PER_PAGE + 1.

Definition showing_to (s : State) : Z :=
  Z.min (currentPage s * MESSAGES_PER_PAGE)
        (Z.of_nat (length (filteredMessages s))).

(** What the callback of the page-number row returns for one page: a
    button, the "..." span, or [null]. *)
Inductive PageEntry : Type :=
| PageButton (page : Z)
| Ellipsis
| NoEntry.

Definition page_entry (currentPage totalPages page : Z) : PageEntry :=
  let showPage :=
    (page =? 1) || (page =? totalPages)
    || ((currentPage - 1 <=? page) && (page <=? currentPage + 1)) in
  if negb showPage && (page =? 2) then Ellipsis
  else if negb showPage && (page =? totalPages - 1) then Ellipsis
  else if negb showPage then NoEntry
  else PageButton page.

(** [Array.from({ length: n }, (_, i) => i + 1)] *)
Definition Array_from_1 (n : Z) : list Z :=
  map Z.of_nat (seq 1 (Z.to_nat n)).

(** What the callback leaves in the row: [null] entries render nothing. *)
Definition page_entries (s : State) : list PageEntry :=
  filter (fun e => match e with NoEntry => false | _ => true end)
    (map (page_entry (currentPage s) (totalPages s))
       (Array_from_1 (totalPages s))).

(** The row as rendered, [None] when it is not: it sits in the last
    branch of [isLoading ? ... : filteredMessages.length === 0 ? ... : ...],
    under [totalPages > 1 &&]. *)
Definition pagination_row (s : State) : option (list PageEntry) :=
  if isLoading s then None
  else if Nat.eqb (length (filteredMessages s)) 0 then None
  else if (1 <? totalPages s) then Some (page_entries s)
  else None.

(** *** A message card *)

(** [Array.isArray(message.reply) ? message.reply[0] : undefined] *)
Definition card_reply (message : MessageWithReactions) : option Reply :=
  match reply message with
  | Some (r :: _) => Some r
  | _ => None
  end.

(** [Boolean(reply)] *)
Definition card_hasReply (message : MessageWithReactions) : bool :=
  match card_reply message with
  | Some _ => true
  | None => false
  end.

(** *** [expandedCards] and [openDropdown]

    A [Set] of strings is the list of its elements in insertion order. *)
Definition Set_has (x : jsstring) (set : list jsstring) : bool :=
  existsb (jsstring_eqb x) set.

Definition Set_delete (x : jsstring) (set : list jsstring) : list jsstring :=
  filter (fun y => negb (jsstring_eqb x y)) set.

Definition Set_add (x : jsstring) (set : list jsstring) : list jsstring :=
  if Set_has x set then set else set ++ [x].

(** The updater [toggleCardExpansion] hands to [setExpandedCards]. *)
Definition toggleCardExpansion (messageId : jsstring) (prev : list jsstring)
  : list jsstring :=
  let newSet := prev in
  if Set_has messageId newSet then Set_delete messageId newSet
  else Set_add messageId newSet.

(** The updater [toggleDropdown] hands to [setOpenDropdown]:
    [prev === messageId ? null : messageId]. *)
Definition toggleDropdown (messageId : jsstring) (prev : option jsstring)
  : option jsstring :=
  match prev with
  | Some p => if jsstring_eqb p messageId then None else Some messageId
  | None => Some messageId
  end.

(** *** The support form *)

Definition setSupportCategory (v : jsstring) (s : State) : State :=
  {| messages := messages s; allMessages := allMessages s;
     isLoading := isLoading s; activeTab := activeTab s; filter_ := filter_ s;
     productCategoryFilter := productCategoryFilter s;
     currentPage := currentPage s; isSupportModalOpen := isSupportModalOpen s;
     supportCategory := v; supportSubject := supportSubject s;
     supportMessage := supportMessage s;
     supportSubmitting := supportSubmitting s;
     supportSuccess := supportSuccess s; supportError := supportError s |}.

Definition setIsSupportModalOpen (v : bool) (s : State) : State :=
  {| messages := messages s; allMessages := allMessages s;
     isLoading := isLoading s; activeTab := activeTab s; filter_ := filter_ s;
     productCategoryFilter := productCategoryFilter s;
     currentPage := currentPage s; isSupportModalOpen := v;
     supportCategory := supportCategory s; supportSubject := supportSubject s;
     supportMessage := supportMessage s;
     supportSubmitting := supportSubmitting s;
     supportSuccess := supportSuccess s; supportError := supportError s |}.

(** The [value]s of [supportCategories], the options of the form. *)
Definition supportCategories : list jsstring :=
  [js "bug"; js "feedback"; js "idea"; js "other"].

Definition resetSupportForm (s : State) : State :=
  setSupportError None
    (setSupportSuccess None
       (setSupportMessage []
          (setSupportSubject []
             (setSupportCategory (js "bug") s)))).

Definition handleOpenSupportModal (s : State) : State :=
  setIsSupportModalOpen true (resetSupportForm s).

Definition handleCloseSupportModal (s : State) : State :=
  setIsSupportModalOpen false s.

(** The body [handleSubmitSupportFeedback] sends, as the route parses it:
    [JSON.stringify] leaves an [undefined] subject out. *)
Definition creator_feedback_body (category : jsstring)
    (subject : option jsstring) (message : jsstring) : JsValue :=
  JObject
    ((js "category", JString category)
     :: match subject with
        | Some subject => [(js "subject", JString subject)]
        | None => []
        end
     ++ [(js "message", JString message)]).

(** The request a form in state [s] sends once its message is not blank. *)
Definition support_request (s : State) : Route.NextRequest :=
  {| Route.json :=
       Normal (creator_feedback_body (supportCategory s)
                 (or_undefined (trim (supportSubject s)))
                 (trim (supportMessage s))) |}.

(** The count [fetchMessages] attaches to a message whose reactions
    request is not rejected: [data?.length || 0] of an ok response, [0]
    of one that is not ok. *)
Definition reaction_total (network : Network) (message : MessageWithReactions)
  : Z :=
  match GET_reactions network (id message) with
  | Normal response =>
      if ok response then
        match response_json response with
        | Normal data => or_zero data
        | Throw _ => 0
        end
      else 0
  | Throw _ => 0
  end.

(** The reactions request of a message resolves and, when ok, its body can
    be read. *)
Definition reactions_readable (network : Network) (message : MessageWithReactions)
  : Prop :=
  exists response,
    GET_reactions network (id message) = Normal response
    /\ (ok response = true -> exists data, response_json response = Normal data).

(** Two states show the same tab, page and filters. *)
Definition same_selection (s s' : State) : Prop :=
  activeTab s' = activeTab s
  /\ currentPage s' = currentPage s
  /\ filter_ s' = filter_ s
  /\ productCategoryFilter s' = productCategoryFilter s.

(** Two states hold the same support form. *)
Definition same_support_form (s s' : State) : Prop :=
  isSupportModalOpen s' = isSupportModalOpen s
  /\ supportCategory s' = supportCategory s
  /\ supportSubject s' = supportSubject s
  /\ supportMessage s' = supportMessage s
  /\ supportSubmitting s' = supportSubmitting s
  /\ supportSuccess s' = supportSuccess s
  /\ supportError s' = supportError s.

(** The state a handler ends in, and its trace. *)
Definition state_after {A : Type} (run : State * list Effect * Completion A)
  : State := fst (fst run).

Definition trace_of {A : Type} (run : State * list Effect * Completion A)
  : list Effect := snd (fst run).

Definition completion_of {A : Type} (run : State * list Effect * Completion A)
  : Completion A := snd run.

(** What the four row handlers have in common, for a run of one of them
    from [s] whose own request failed with [failure] (or did not), next to
    the run of [fetchMessages] from [s]: the handler returns; a request
    that went through is followed by the refetch and nothing else; one
    that failed leaves the state alone; an alert is raised exactly on a
    failure; and the tab, page, filters and support form are kept. *)
Definition refetches_or_alerts (failure : option Thrown) (s : State)
    (run refetch : State * list Effect * Completion unit) : Prop :=
  completion_of run = Normal tt
  /\ (failure = None -> run = refetch)
  /\ (failure <> None -> state_after run = s)
  /\ (existsb DashboardSpec.is_alert (trace_of run) = true <-> failure <> None)
  /\ same_selection s (state_after run)
  /\ same_support_form s (state_after run).

End DashboardView.

(** ** More sample data *)
Module MoreSample.

Import Route Dashboard.

Local Open Scope Z_scope.

(** A creator signed in without a company. *)
Definition no_company : World :=
  {| requireCreator :=
       Normal {| companyId := None; userId := Some (js "user_1") |};
     getCreatorForCompany := fun _ => Normal (Some Sample.creator);
     supabaseAdmin := Sample.database |}.

(** A signed-in creator whose company has no creator record. *)
Definition no_record : World :=
  {| requireCreator :=
       Normal {| companyId := Some (js "biz_1"); userId := Some (js "user_1") |};
     getCreatorForCompany := fun _ => Normal None;
     supabaseAdmin := Sample.database |}.

(** A signed-in creator and a database that is down. *)
Definition database_down : World :=
  {| requireCreator :=
       Normal {| companyId := Some (js "biz_1"); userId := Some (js "user_1") |};
     getCreatorForCompany := fun _ => Normal (Some Sample.creator);
     supabaseAdmin :=
       {| Supabase.fault := Some (js "connection refused");
          Supabase.gen_random_uuid := js "unused";
          Supabase.now := 0 |} |}.

Definition signed_in_auth : Auth :=
  {| companyId := Some (js "biz_1"); userId := Some (js "user_1") |}.

Definition numeric_subject : JsValue :=
  JObject [(js "category", JString (js "bug"));
           (js "subject", JNumber 5);
           (js "message", JString (js "It fails"))].

Definition plain_with_extras : JsValue :=
  JObject [(js "creator_id", JString (js "someone-else"));
           (js "category", JString (js "bug"));
           (js "subject", JString (js "Login"));
           (js "message", JString (js "It fails"));
           (js "company_id", JString (js "biz_2"))].

(** A request whose body cannot be parsed, with the parser quoting it. *)
Definition unparseable : NextRequest :=
  {| json :=
       Throw {| thrown_message :=
                  Some (js "Unexpected token 'U', Unauthorized is not valid JSON") |} |}.

(** A draft of the support form. *)
Definition draft : State :=
  setSupportSubject (js " Login ")
    (setSupportMessage (js "  It fails  ") initial).

Definition ok_response {A : Type} (a : A) : Completion (Response A) :=
  Normal {| ok := true; response_json := Normal a |}.

Definition not_ok {A : Type} : Completion (Response A) :=
  Normal {| ok := false;
            response_json := Throw {| thrown_message := None |} |}.

(** Eleven messages, the second page open. *)
Definition eleven : list MessageWithReactions :=
  map (fun i => DashboardSample.message_ "m" None (Z.of_nat i) false None)
      (seq 0%nat 11%nat).

Definition on_page_two : State :=
  setCurrentPage 2 (setIsLoading false (setMessages eleven initial)).

(** The server after the eleventh message was deleted: ten are left, and
    the reactions of each are an empty list. *)
Definition after_delete : Network :=
  {| GET_feedback_filtered := fun _ _ _ => ok_response (Some (firstn 10 eleven));
     GET_feedback_all := fun _ => ok_response (Some (firstn 10 eleven));
     GET_reactions := fun _ => ok_response (Some 0);
     PATCH_feedback := fun _ _ => ok_response tt;
     DELETE_feedback := fun _ => ok_response tt;
     POST_replies := fun _ _ _ => ok_response tt;
     PATCH_replies := fun _ _ => ok_response tt;
     POST_creator_feedback := fun _ _ _ => ok_response None |}.

(** A server that answers every request, with reactions that differ. *)
Definition online : Network :=
  {| GET_feedback_filtered := fun _ _ _ => ok_response (Some DashboardSample.mixed);
     GET_feedback_all := fun _ => ok_response (Some DashboardSample.mixed);
     GET_reactions :=
       fun id => if jsstring_eqb id (js "seen") then ok_response (Some 6)
                 else if jsstring_eqb id (js "new") then not_ok
                 else ok_response None;
     PATCH_feedback := fun _ _ => ok_response tt;
     DELETE_feedback := fun _ => ok_response tt;
     POST_replies := fun _ _ _ => not_ok;
     PATCH_replies := fun _ _ => ok_response tt;
     POST_creator_feedback := fun _ _ _ => ok_response None |}.

(** A hundred messages, loaded, page five of ten open. *)
Definition hundred : State :=
  setCurrentPage 5
    (setIsLoading false
       (setMessages
          (map (fun i => DashboardSample.message_ "m" None (Z.of_nat i) false None)
               (seq 0%nat 100%nat))
          initial)).

(** Five messages, loaded: a single page. *)
Definition single_page : State :=
  setIsLoading false (setMessages DashboardSample.five_hot initial).


End MoreSample.

(** ** Facts about JavaScript strings *)
Module JSFacts.

Import Spec.

Lemma jsstring_eqb_eq (s t : jsstring) : jsstring_eqb s t = true <-> s = t.
Proof.
  revert t; induction s as [|c s IH]; intros [|d t]; simpl;
    try (split; [discriminate | discriminate]); try tauto.
  rewrite andb_true_iff, N.eqb_eq, IH.
  split; [intros [-> ->]; reflexivity | intros H; inversion H; auto].
Qed.

Lemma existsb_jsstring_eqb (s : jsstring) (l : list jsstring) :
  existsb (jsstring_eqb s) l = true <-> In s l.
Proof.
  rewrite existsb_exists; split.
  - intros (t & Ht & E). apply jsstring_eqb_eq in E. now subst.
  - intros H. exists s. split; [assumption | now apply jsstring_eqb_eq].
Qed.

Lemma trimStart_head (s : jsstring) :
  starts_with_whitespace (trimStart s) = false.
Proof.
  induction s as [|c s IH]; simpl; [reflexivity|].
  destruct (isWhiteSpace c) eqn:E; [assumption | simpl; assumption].
Qed.

Lemma trimStart_nil_iff (s : jsstring) : trimStart s = [] <-> blank s = true.
Proof.
  induction s as [|c s IH]; simpl; [tauto|].
  destruct (isWhiteSpace c); simpl; [assumption|].
  split; discriminate.
Qed.

Lemma trimStart_snoc (s : jsstring) (c : N) :
  isWhiteSpace c = false -> exists v, trimStart (s ++ [c]) = v ++ [c].
Proof.
  intros Hc; induction s as [|d s IH]; simpl.
  - rewrite Hc. now exists [].
  - destruct (isWhiteSpace d); [assumption|].
    now exists (d :: s).
Qed.

Lemma trimStart_idem_blank (s : jsstring) :
  blank (trimStart s) = blank s.
Proof.
  induction s as [|c s IH]; simpl; [reflexivity|].
  destruct (isWhiteSpace c) eqn:E; simpl; [assumption|].
  now rewrite E.
Qed.

(** [trim] leaves nothing exactly on the blank strings. *)
Lemma trim_truthy (s : jsstring) : truthy_string (trim s) = negb (blank s).
Proof.
  unfold trim, trimEnd.
  destruct (trimStart s) as [|c r] eqn:E.
  - apply trimStart_nil_iff in E. now rewrite E.
  - assert (Hc : isWhiteSpace c = false).
    { pose proof (trimStart_head s) as H. now rewrite E in H. }
    assert (Hb : blank s = false).
    { destruct (blank s) eqn:B; [|reflexivity].
      apply trimStart_nil_iff in B. congruence. }
    rewrite Hb. simpl rev.
    destruct (trimStart_snoc (rev r) c Hc) as [v ->].
    rewrite rev_app_distr. reflexivity.
Qed.

Lemma trim_nil_iff (s : jsstring) : trim s = [] <-> blank s = true.
Proof.
  pose proof (trim_truthy s) as H.
  destruct (trim s), (blank s); simpl in H; split; congruence.
Qed.

(** [trim] leaves no whitespace at either end. *)
Lemma trim_tidy (s : jsstring) : tidy (trim s) = true.
Proof.
  unfold tidy, ends_with_whitespace, trim, trimEnd.
  rewrite rev_involutive, trimStart_head, andb_true_r.
  destruct (trimStart s) as [|c r] eqn:E; [reflexivity|].
  assert (Hc : isWhiteSpace c = false).
  { pose proof (trimStart_head s) as H. now rewrite E in H. }
  simpl rev. destruct (trimStart_snoc (rev r) c Hc) as [v ->].
  rewrite rev_app_distr. simpl. now rewrite Hc.
Qed.

End JSFacts.

(** ** The creator-feedback route *)
Module RouteFacts.

Import Route Spec JSFacts.

Lemma get_nullish_default (body : JsValue) (k : jsstring) :
  get (nullish_default body) k = get body k.
Proof. destruct body; reflexivity. Qed.

Lemma category_rejected_false_iff (category : Field) :
  category_rejected category = false
  <-> exists s, category = Some (JString s) /\ In s ALLOWED_CATEGORIES.
Proof.
  unfold category_rejected. rewrite orb_false_iff, !negb_false_iff. split.
  - intros [_ H]. destruct category as [[| | |s| |]|]; try discriminate.
    exists s. split; [reflexivity|]. now apply existsb_jsstring_eqb.
  - intros (s & -> & H). split.
    + destruct H as [<-|[<-|[<-|[<-|[]]]]]; reflexivity.
    + unfold ALLOWED_CATEGORIES_includes. now apply existsb_jsstring_eqb.
Qed.

Lemma message_rejected_false_iff (message : Field) :
  message_rejected message = false
  <-> exists s, message = Some (JString s) /\ blank s = false.
Proof.
  unfold message_rejected. rewrite !orb_false_iff, !negb_false_iff. split.
  - intros [[_ T] H]. destruct message as [[| | |s| |]|]; try discriminate.
    exists s. split; [reflexivity|]. simpl in H.
    rewrite trim_truthy in H. now apply negb_true_iff in H.
  - intros (s & -> & B). simpl. rewrite trim_truthy, B. repeat split.
    destruct s; [discriminate | reflexivity].
Qed.

Lemma category_rejected_spec (body : JsValue) :
  category_rejected (get (nullish_default body) (js "category")) = false
  <-> category_allowed body.
Proof. rewrite get_nullish_default. apply category_rejected_false_iff. Qed.

Lemma message_rejected_spec (body : JsValue) :
  message_rejected (get (nullish_default body) (js "message")) = false
  <-> message_present body.
Proof. rewrite get_nullish_default. apply message_rejected_false_iff. Qed.

Lemma insert_Data (db : Supabase.Database) (r : Table.Insert) (row : Row.t) :
  Supabase.insert db r = Supabase.Data row ->
  Row.category row = Table.category r
  /\ Row.subject row = Table.subject r
  /\ Row.message row = Table.message r.
Proof.
  unfold Supabase.insert. destruct (Supabase.fault db); [discriminate|].
  destruct (Supabase.category_check _); [|discriminate].
  intros H; inversion H; subst; simpl. auto.
Qed.

Lemma or_null_subject_trim (subject : Field) (trimmed : option jsstring) :
  subject_trim subject = Normal trimmed ->
  or_null trimmed = stored_subject subject /\ subject_trimmable subject.
Proof.
  unfold subject_trimmable.
  destruct subject as [[| | |s| |]|]; simpl; intros H; inversion H; subst;
    simpl; try (split; [reflexivity | tauto]).
  rewrite trim_truthy. split; [now destruct (blank s) | eauto].
Qed.

(** Every way to a 201 goes through all the guards and a stored row. *)
Lemma POST_201_inv (w : World) (request : NextRequest) :
  status (POST w request) = 201%Z ->
  exists auth body creator row,
    requireCreator w = Normal auth
    /\ companyId_missing auth = false
    /\ json request = Normal body
    /\ category_allowed body
    /\ message_present body
    /\ getCreatorForCompany w (companyId_of auth) = Normal (Some creator)
    /\ subject_trimmable (get body (js "subject"))
    /\ Supabase.insert (supabaseAdmin w)
         {| Table.creator_id := creator_id creator;
            Table.company_id := companyId_of auth;
            Table.user_id := userId auth;
            Table.category := string_of (get body (js "category"));
            Table.subject := stored_subject (get body (js "subject"));
            Table.message := trim (string_of (get body (js "message"))) |}
       = Supabase.Data row
    /\ POST w request = respond [] (DataBody row) 201.
Proof.
  unfold POST, POST_try, bind.
  assert (Hcatch : forall e, status (POST_catch e) <> 201%Z).
  { intros e. unfold POST_catch. destruct (includes _ _); simpl; discriminate. }
  destruct (requireCreator w) as [auth|e] eqn:Ha; [|intros H; now apply Hcatch in H].
  destruct (companyId_missing auth) eqn:Hc; [simpl; discriminate|].
  destruct (json request) as [body|e] eqn:Hj; [|intros H; now apply Hcatch in H].
  destruct (category_rejected _) eqn:Hcat; [simpl; discriminate|].
  destruct (message_rejected _) eqn:Hmsg; [simpl; discriminate|].
  destruct (getCreatorForCompany w _) as [[creator|]|e] eqn:Hg;
    [|simpl; discriminate|intros H; now apply Hcatch in H].
  destruct (subject_trim _) as [trimmed|e] eqn:Hs; [|intros H; now apply Hcatch in H].
  rewrite !get_nullish_default in *.
  apply or_null_subject_trim in Hs. destruct Hs as [Hs Ht]. rewrite Hs.
  destruct (Supabase.insert _ _) as [row|err] eqn:Hi; [|simpl; discriminate].
  intros _. exists auth, body, creator, row.
  rewrite <- (get_nullish_default body) in Hcat, Hmsg.
  apply category_rejected_spec in Hcat. apply message_rejected_spec in Hmsg.
  repeat split; auto.
Qed.

(** The guards of the route, once the caller is authenticated and the
    body is parsed. *)
Lemma POST_authenticated (w : World) (request : NextRequest) (auth : Auth)
    (body : JsValue) :
  requireCreator w = Normal auth ->
  companyId_missing auth = false ->
  json request = Normal body ->
  POST w request =
    if category_rejected (get body (js "category")) then
      respond [] (ErrorBody (js "Invalid category")) 400
    else if message_rejected (get body (js "message")) then
      respond [] (ErrorBody (js "Message is required")) 400
    else
      match (creator <- getCreatorForCompany w (companyId_of auth) ;;
             match creator with
             | None =>
                 Normal (respond [] (ErrorBody (js "Creator not found for company")) 404)
             | Some creator =>
                 trimmed <- subject_trim (get body (js "subject")) ;;
                 match Supabase.insert (supabaseAdmin w)
                         {| Table.creator_id := creator_id creator;
                            Table.company_id := companyId_of auth;
                            Table.user_id := userId auth;
                            Table.category := string_of (get body (js "category"));
                            Table.subject := or_null trimmed;
                            Table.message := trim (string_of (get body (js "message"))) |} with
                 | Supabase.Error _ =>
                     Normal (respond [js "Error inserting creator feedback:"]
                               (ErrorBody (js "Failed to submit feedback")) 500)
                 | Supabase.Data data => Normal (respond [] (DataBody data) 201)
                 end
             end)%completion with
      | Normal response => response
      | Throw error => POST_catch error
      end.
Proof.
  intros Ha Hc Hj. unfold POST, POST_try. rewrite Ha. simpl bind. rewrite Hc, Hj.
  simpl bind. rewrite !get_nullish_default.
  destruct (category_rejected _); [reflexivity|].
  destruct (message_rejected _); reflexivity.
Qed.

(** C1, as stated, fails: a caller [requireCreator] rejects gets 401 for a
    body whose category is not allowed. *)
Lemma unknown_category_signed_out :
  ~ category_allowed Sample.unknown_category
  /\ status (POST Sample.signed_out (Sample.request_of Sample.unknown_category))
     = 401%Z.
Proof.
  split; [|reflexivity].
  intros (s & H & Hin). vm_compute in H. inversion H; subst; clear H.
  vm_compute in Hin. repeat (destruct Hin as [Hin|Hin]; [discriminate|]).
  exact Hin.
Qed.

(** C1 (amended): when [requireCreator] resolves with a company id and the
    body parses, a category that is missing or outside
    {bug, feedback, idea, other} gets HTTP 400 with the error
    "Invalid category", whatever the other fields of the body are. *)
Theorem invalid_category_is_400 (w : World) (request : NextRequest)
    (auth : Auth) (body : JsValue) :
  requireCreator w = Normal auth ->
  companyId_missing auth = false ->
  json request = Normal body ->
  ~ category_allowed body ->
  POST w request = respond [] (ErrorBody (js "Invalid category")) 400.
Proof.
  intros Ha Hc Hj Hcat. rewrite (POST_authenticated w request Ha Hc Hj).
  destruct (category_rejected _) eqn:E; [reflexivity|].
  apply category_rejected_false_iff in E. contradiction.
Qed.

Lemma invalid_category_is_400_witness :
  POST Sample.signed_in (Sample.request_of Sample.unknown_category)
  = respond [] (ErrorBody (js "Invalid category")) 400.
Proof.
  apply (@invalid_category_is_400 Sample.signed_in
           (Sample.request_of Sample.unknown_category)
           {| companyId := Some (js "biz_1"); userId := Some (js "user_1") |}
           Sample.unknown_category).
  - reflexivity.
  - reflexivity.
  - reflexivity.
  - intros (s & H & Hin). vm_compute in H. inversion H; subst; clear H.
    vm_compute in Hin. repeat (destruct Hin as [Hin|Hin]; [discriminate|]).
    exact Hin.
Defined.

(** C2, as stated, fails: a caller [requireCreator] rejects gets 401 for a
    body with an allowed category and a whitespace-only message. *)
Lemma blank_message_signed_out :
  category_allowed Sample.blank_message
  /\ ~ message_present Sample.blank_message
  /\ status (POST Sample.signed_out (Sample.request_of Sample.blank_message))
     = 401%Z.
Proof.
  split; [|split; [|reflexivity]].
  - exists (js "bug"). split; [reflexivity | now left].
  - intros (s & H & B). vm_compute in H. inversion H; subst; clear H.
    vm_compute in B. discriminate.
Qed.

(** C2 (amended): when [requireCreator] resolves with a company id and the
    body parses with an allowed category, a message that is missing, not a
    string, empty or whitespace-only gets HTTP 400. *)
Theorem unusable_message_is_400 (w : World) (request : NextRequest)
    (auth : Auth) (body : JsValue) :
  requireCreator w = Normal auth ->
  companyId_missing auth = false ->
  json request = Normal body ->
  category_allowed body ->
  ~ message_present body ->
  POST w request = respond [] (ErrorBody (js "Message is required")) 400.
Proof.
  intros Ha Hc Hj Hcat Hmsg. rewrite (POST_authenticated w request Ha Hc Hj).
  apply category_rejected_false_iff in Hcat. rewrite Hcat.
  destruct (message_rejected _) eqn:E; [reflexivity|].
  apply message_rejected_false_iff in E. contradiction.
Qed.

Lemma unusable_message_is_400_witness :
  POST Sample.signed_in (Sample.request_of Sample.blank_message)
  = respond [] (ErrorBody (js "Message is required")) 400.
Proof.
  apply (@unusable_message_is_400 Sample.signed_in
           (Sample.request_of Sample.blank_message)
           {| companyId := Some (js "biz_1"); userId := Some (js "user_1") |}
           Sample.blank_message).
  - reflexivity.
  - reflexivity.
  - reflexivity.
  - exists (js "bug"). split; [reflexivity | now left].
  - intros (s & H & B). vm_compute in H. inversion H; subst; clear H.
    vm_compute in B. discriminate.
Defined.

(** C3, as stated, fails: a valid submission whose message and subject are
    padded with spaces is answered 201 with a record whose message and
    subject are not the submitted ones. *)
Lemma padded_submission_not_echoed :
  get Sample.padded (js "message") = Some (JString (js " dark mode "))
  /\ get Sample.padded (js "subject") = Some (JString (js "  "))
  /\ exists row,
       POST Sample.signed_in (Sample.request_of Sample.padded)
       = respond [] (DataBody row) 201
       /\ Row.message row = js "dark mode"
       /\ Row.message row <> js " dark mode "
       /\ Row.subject row = None.
Proof.
  split; [reflexivity|]. split; [reflexivity|].
  eexists. split; [vm_compute; reflexivity|].
  split; [reflexivity|]. split; [discriminate | reflexivity].
Qed.

(** C3 (amended): a request that passes authentication with a company id,
    carries an allowed category, a message with a visible character and a
    subject that is absent, null or a string, finds a creator record, and
    whose insert the database does not fail, gets HTTP 201 with the stored
    record; its category is the submitted one, its message the submitted
    message trimmed, and its subject the submitted subject trimmed, or null
    when that is absent or blank. *)
Theorem valid_submission_is_201 (w : World) (request : NextRequest)
    (auth : Auth) (body : JsValue) (creator : Creator) :
  requireCreator w = Normal auth ->
  companyId_missing auth = false ->
  json request = Normal body ->
  category_allowed body ->
  message_present body ->
  subject_trimmable (get body (js "subject")) ->
  getCreatorForCompany w (companyId_of auth) = Normal (Some creator) ->
  Supabase.fault (supabaseAdmin w) = None ->
  exists row,
    POST w request = respond [] (DataBody row) 201
    /\ get body (js "category") = Some (JString (Row.category row))
    /\ Row.message row = trim (string_of (get body (js "message")))
    /\ Row.subject row = stored_subject (get body (js "subject")).
Proof.
  intros Ha Hc Hj Hcat Hmsg Hsub Hg Hf.
  rewrite (POST_authenticated w request Ha Hc Hj).
  pose proof Hcat as (c & Ec & Hin).
  apply category_rejected_false_iff in Hcat. rewrite Hcat.
  apply message_rejected_false_iff in Hmsg. rewrite Hmsg.
  rewrite Hg. simpl bind.
  assert (Hs : exists t, subject_trim (get body (js "subject")) = Normal t).
  { destruct Hsub as [->|[->|(x & ->)]]; simpl; eauto. }
  destruct Hs as (t & Hs). rewrite Hs. simpl bind.
  apply or_null_subject_trim in Hs. destruct Hs as [Hs _]. rewrite Hs.
  unfold Supabase.insert. rewrite Hf. cbn [Table.category].
  rewrite Ec. cbn [string_of].
  assert (Hck : Supabase.category_check c = true).
  { unfold Supabase.category_check. now apply existsb_jsstring_eqb. }
  rewrite Hck. eexists. split; [reflexivity|]. simpl. auto.
Qed.

Lemma valid_submission_is_201_witness :
  exists row,
    POST Sample.signed_in (Sample.request_of Sample.plain)
    = respond [] (DataBody row) 201
    /\ get Sample.plain (js "category") = Some (JString (Row.category row))
    /\ Row.message row = trim (string_of (get Sample.plain (js "message")))
    /\ Row.subject row = stored_subject (get Sample.plain (js "subject")).
Proof.
  apply (@valid_submission_is_201 Sample.signed_in
           (Sample.request_of Sample.plain)
           {| companyId := Some (js "biz_1"); userId := Some (js "user_1") |}
           Sample.plain Sample.creator).
  - reflexivity.
  - reflexivity.
  - reflexivity.
  - exists (js "bug"). split; [reflexivity | now left].
  - exists (js "It fails"). split; reflexivity.
  - right; right. exists (js "Login"). reflexivity.
  - reflexivity.
  - reflexivity.
Defined.

(** C4, as stated, fails: when [requireCreator] throws an error whose
    message does not contain "Unauthorized", the answer is 500. *)
Lemma requireCreator_failure_500 :
  requireCreator Sample.auth_unreachable
  = Throw {| thrown_message := Some (js "fetch failed") |}
  /\ POST Sample.auth_unreachable (Sample.request_of Sample.plain)
     = respond [js "Error handling POST /api/creator-feedback:"]
         (ErrorBody (js "Internal server error")) 500.
Proof. split; reflexivity. Qed.

(** C4 (amended): every request for which [requireCreator] throws an error
    whose message is a string containing "Unauthorized" gets HTTP 401 with
    the error "Unauthorized". *)
Theorem unauthorized_is_401 (w : World) (request : NextRequest)
    (error : Thrown) (message : jsstring) :
  requireCreator w = Throw error ->
  thrown_message error = Some message ->
  includes message (js "Unauthorized") = true ->
  POST w request =
    respond [js "Error handling POST /api/creator-feedback:"]
      (ErrorBody (js "Unauthorized")) 401.
Proof.
  intros Ha Hm Hi. unfold POST, POST_try. rewrite Ha. simpl bind.
  unfold POST_catch. rewrite Hm, Hi. reflexivity.
Qed.

Lemma unauthorized_is_401_witness :
  POST Sample.signed_out (Sample.request_of Sample.plain) =
    respond [js "Error handling POST /api/creator-feedback:"]
      (ErrorBody (js "Unauthorized")) 401.
Proof.
  apply (@unauthorized_is_401 Sample.signed_out (Sample.request_of Sample.plain)
           {| thrown_message := Some (js "Unauthorized: creator access required") |}
           (js "Unauthorized: creator access required")).
  - reflexivity.
  - reflexivity.
  - vm_compute. reflexivity.
Defined.

(** C10: whenever the route answers 201, the body is the stored record;
    its message is a non-empty string with no leading or trailing
    whitespace; its subject is null or a non-empty string with no leading
    or trailing whitespace; and a submitted subject made of whitespace only
    is stored as null. *)
Theorem stored_record_is_trimmed (w : World) (request : NextRequest) :
  status (POST w request) = 201%Z ->
  exists row,
    body (POST w request) = DataBody row
    /\ Row.message row <> []
    /\ tidy (Row.message row) = true
    /\ (Row.subject row = None
        \/ exists s, Row.subject row = Some s /\ s <> [] /\ tidy s = true)
    /\ (forall submitted s,
          json request = Normal submitted ->
          get submitted (js "subject") = Some (JString s) ->
          blank s = true ->
          Row.subject row = None).
Proof.
  intros H201.
  destruct (POST_201_inv w request H201)
    as (auth & b & creator & row & Ha & Hc & Hj & Hcat & Hmsg & Hg & Hsub & Hi & HP).
  exists row. rewrite HP. split; [reflexivity|].
  apply insert_Data in Hi. cbn [Table.category Table.subject Table.message] in Hi.
  destruct Hi as (_ & Hsubj & Hm). rewrite Hm, Hsubj.
  destruct Hmsg as (m & Em & Bm). rewrite Em. cbn [string_of].
  split; [|split; [apply trim_tidy|split]].
  - intros E. apply trim_nil_iff in E. congruence.
  - destruct (get b (js "subject")) as [[| | |s| |]|]; simpl; auto.
    destruct (blank s) eqn:B; [now left|]. right. exists (trim s).
    split; [reflexivity|]. split; [|apply trim_tidy].
    intros E. apply trim_nil_iff in E. congruence.
  - intros submitted s Hj' Hs B. rewrite Hj in Hj'. inversion Hj'; subst.
    rewrite Hs. simpl. now rewrite B.
Qed.

Lemma stored_record_is_trimmed_witness :
  exists row,
    body (POST Sample.signed_in (Sample.request_of Sample.padded)) = DataBody row
    /\ Row.message row = js "dark mode"
    /\ Row.subject row = None.
Proof.
  destruct (@stored_record_is_trimmed Sample.signed_in
              (Sample.request_of Sample.padded) eq_refl)
    as (row & Hb & _ & _ & _ & _).
  exists row. split; [exact Hb|].
  vm_compute in Hb. inversion Hb; subst. split; reflexivity.
Defined.

End RouteFacts.

(** ** The stable sort *)
Module SortFacts.

Import JSArray.

Section Sorting.

Variable A : Type.
Variable compareFn : A -> A -> Z.

Hypothesis compareFn_trans :
  forall a b c, (compareFn a b <= 0 -> compareFn b c <= 0 -> compareFn a c <= 0)%Z.
Hypothesis compareFn_total :
  forall a b, (0 < compareFn a b -> compareFn b a <= 0)%Z.

Lemma insert_sorted_perm (x : A) (l : list A) :
  Permutation (x :: l) (insert_sorted compareFn x l).
Proof.
  induction l as [|y l IH]; simpl; [reflexivity|].
  destruct (compareFn x y <=? 0)%Z; [reflexivity|].
  rewrite perm_swap. now apply perm_skip.
Qed.

Lemma sort_perm (l : list A) : Permutation l (sort compareFn l).
Proof.
  induction l as [|x l IH]; simpl; [reflexivity|].
  rewrite <- insert_sorted_perm. now apply perm_skip.
Qed.

Lemma insert_sorted_sorted (x : A) (l : list A) :
  StronglySorted (before compareFn) l -> StronglySorted (before compareFn) (insert_sorted compareFn x l).
Proof.
  induction 1 as [|y l Hs IH Hy]; simpl.
  - repeat constructor.
  - destruct (compareFn x y <=? 0)%Z eqn:E.
    + apply Z.leb_le in E. constructor; [now constructor|].
      constructor; [exact E|].
      eapply Forall_impl; [|exact Hy].
      intros b Hb. exact (@compareFn_trans x y b E Hb).
    + apply Z.leb_gt in E. constructor; [exact IH|].
      apply (Permutation_Forall (insert_sorted_perm x l)).
      constructor; [now apply compareFn_total | exact Hy].
Qed.

Lemma sort_sorted (l : list A) : StronglySorted (before compareFn) (sort compareFn l).
Proof.
  induction l as [|x l IH]; simpl; [constructor|].
  now apply insert_sorted_sorted.
Qed.

Lemma sorted_positions (R : A -> A -> Prop) (l : list A) :
  StronglySorted R l ->
  forall i j a b, (i < j)%nat ->
    nth_error l i = Some a -> nth_error l j = Some b -> R a b.
Proof.
  induction 1 as [|x l Hs IH Hx]; intros i j a b Hij Ha Hb.
  - destruct i; discriminate.
  - destruct j as [|j]; [lia|]. simpl in Hb.
    destruct i as [|i]; simpl in Ha.
    + inversion Ha; subst. rewrite Forall_forall in Hx.
      apply Hx. now apply nth_error_In with j.
    + apply (IH i j); [lia | assumption | assumption].
Qed.

(** A class of elements the comparator never separates keeps its order. *)
Variable same : A -> bool.
Hypothesis same_tied :
  forall a b, same a = true -> same b = true -> (compareFn a b <= 0)%Z.

Lemma filter_insert_sorted (x : A) (l : list A) :
  filter same (insert_sorted compareFn x l) = filter same (x :: l).
Proof.
  induction l as [|y l IH]; [reflexivity|].
  simpl insert_sorted. destruct (compareFn x y <=? 0)%Z eqn:E; [reflexivity|].
  apply Z.leb_gt in E. simpl in *. rewrite IH.
  destruct (same x) eqn:Sx, (same y) eqn:Sy; try reflexivity.
  pose proof (@same_tied x y Sx Sy). lia.
Qed.

Lemma filter_sort (l : list A) : filter same (sort compareFn l) = filter same l.
Proof.
  induction l as [|x l IH]; [reflexivity|].
  simpl sort. rewrite filter_insert_sorted. simpl. now rewrite IH.
Qed.

End Sorting.

(** Whatever algorithm sorts, a stable sort has one result: two sorted
    rearrangements that keep the order inside every class of tied elements
    are equal. *)
Section Uniqueness.

Variable A : Type.
Variable compareFn : A -> A -> Z.
Variable K : Type.
Variable same : K -> A -> bool.

Hypothesis same_own : forall x, exists k, same k x = true.
Hypothesis same_closed :
  forall k x y,
    (compareFn x y <= 0)%Z -> (compareFn y x <= 0)%Z ->
    same k x = true -> same k y = true.

Lemma head_before (x y : A) (l1 l2 : list A) :
  Permutation (x :: l1) (y :: l2) ->
  Forall (before compareFn x) l1 ->
  x = y \/ before compareFn x y.
Proof.
  intros P Hx.
  assert (Hy : In y (x :: l1)).
  { apply (Permutation_in y (Permutation_sym P)). now left. }
  destruct Hy as [->|Hy]; [now left|right].
  rewrite Forall_forall in Hx. now apply Hx.
Qed.

Lemma stable_sorted_unique (l1 : list A) :
  forall l2,
    Permutation l1 l2 ->
    StronglySorted (before compareFn) l1 ->
    StronglySorted (before compareFn) l2 ->
    (forall k, filter (same k) l1 = filter (same k) l2) ->
    l1 = l2.
Proof.
  induction l1 as [|x l1 IH]; intros l2 P S1 S2 F.
  - apply Permutation_nil in P. now subst.
  - destruct l2 as [|y l2].
    { apply Permutation_sym, Permutation_nil in P. discriminate. }
    inversion S1 as [|? ? S1' Hx]; inversion S2 as [|? ? S2' Hy]; subst.
    assert (E : x = y).
    { destruct (head_before P Hx) as [E|Hxy]; [exact E|].
      destruct (head_before (Permutation_sym P) Hy) as [E|Hyx]; [now symmetry|].
      destruct (same_own x) as [k Hk].
      pose proof (@same_closed k x y Hxy Hyx Hk) as Hk'.
      specialize (F k). simpl in F. rewrite Hk, Hk' in F. now inversion F. }
    subst y. f_equal. apply IH; [|assumption|assumption|].
    + now apply Permutation_cons_inv with x.
    + intros k. specialize (F k). simpl in F.
      destruct (same k x); [now inversion F | exact F].
Qed.

End Uniqueness.

End SortFacts.

(** ** [slice] on bounds that are not negative *)
Module SliceFacts.

Import JSArray.

Section Slices.

Variable A : Type.

Lemma firstn_beyond (n m : nat) (l : list A) :
  (length l <= n)%nat -> (length l <= m)%nat -> firstn n l = firstn m l.
Proof. intros Hn Hm. now rewrite !firstn_all2. Qed.

Lemma slice_nonneg (l : list A) (a b : Z) :
  (0 <= a <= b)%Z ->
  slice l a b = firstn (Z.to_nat (b - a)) (skipn (Z.to_nat a) l).
Proof.
  intros Hab. unfold slice, relative_index.
  destruct (Z.ltb_spec a 0) as [?|_]; [lia|].
  destruct (Z.ltb_spec b 0) as [?|_]; [lia|].
  set (len := Z.of_nat (length l)).
  destruct (Z.le_gt_cases a len) as [Ha|Ha].
  - rewrite (Z.min_l a len) by assumption.
    destruct (Z.le_gt_cases b len) as [Hb|Hb].
    + now rewrite (Z.min_l b len).
    + rewrite (Z.min_r b len) by lia.
      apply firstn_beyond; rewrite length_skipn; subst len; lia.
  - rewrite (Z.min_r a len), (Z.min_r b len) by lia.
    rewrite !skipn_all2 by (subst len; lia).
    now rewrite !firstn_nil.
Qed.

Lemma firstn_plus (n m : nat) (l : list A) :
  firstn (n + m) l = firstn n l ++ firstn m (skipn n l).
Proof.
  revert l; induction n as [|n IH]; intros l; [reflexivity|].
  destruct l as [|x l]; simpl; [now rewrite firstn_nil|].
  now rewrite IH.
Qed.

(** Consecutive chunks of [k] elements rebuild a prefix. *)
Lemma concat_chunks (k : nat) (l : list A) (pages : nat) :
  concat (map (fun i => firstn k (skipn (k * i) l)) (seq 0 pages))
  = firstn (k * pages) l.
Proof.
  induction pages as [|p IH].
  - now rewrite Nat.mul_0_r.
  - rewrite seq_S, map_app, concat_app, IH. simpl.
    rewrite app_nil_r, <- firstn_plus. f_equal. lia.
Qed.

End Slices.

(** [Math_ceil_div n d] is the least integer not below [n / d]. *)
Lemma Math_ceil_div_spec (n d : Z) :
  (0 < d)%Z ->
  (d * (Dashboard.Math_ceil_div n d - 1) < n <= d * Dashboard.Math_ceil_div n d)%Z.
Proof.
  intros Hd. unfold Dashboard.Math_ceil_div.
  pose proof (Z.div_mod (- n) d) as E.
  pose proof (Z.mod_pos_bound (- n) d Hd) as B.
  nia.
Qed.

End SliceFacts.

(** ** The dashboard *)
Module DashboardFacts.

Import JSArray Dashboard DashboardSpec SortFacts SliceFacts.

Lemma compareFn_trans (a b c : MessageWithReactions) :
  (compareFn a b <= 0 -> compareFn b c <= 0 -> compareFn a c <= 0)%Z.
Proof.
  unfold compareFn.
  repeat match goal with
         | |- context [(?x =? 0)%Z] => destruct (Z.eqb_spec x 0)
         end; simpl; lia.
Qed.

Lemma compareFn_total (a b : MessageWithReactions) :
  (0 < compareFn a b -> compareFn b a <= 0)%Z.
Proof.
  unfold compareFn.
  repeat match goal with
         | |- context [(?x =? 0)%Z] => destruct (Z.eqb_spec x 0)
         end; simpl; lia.
Qed.

Lemma before_ranked (a b : MessageWithReactions) :
  before compareFn a b <-> ranked_before a b.
Proof.
  unfold before, compareFn, ranked_before, reactions.
  destruct (Z.eqb_spec (or_zero (reaction_count b) - or_zero (reaction_count a)) 0);
    simpl; lia.
Qed.

Lemma tied_not_separated (c t : Z) (a b : MessageWithReactions) :
  tied c t a = true -> tied c t b = true -> (compareFn a b <= 0)%Z.
Proof.
  unfold tied, compareFn, reactions.
  rewrite !andb_true_iff, !Z.eqb_eq. intros [Ha Ta] [Hb Tb].
  rewrite Ha, Hb, Ta, Tb, Z.sub_diag. simpl. lia.
Qed.

(** The comparator's sort ranks any list: of two positions of the result,
    the earlier holds the message with more reactions, or with as many and
    a [created_at] not older; messages tied on both keep their order; and
    nothing is lost or added. *)
Lemma sort_compareFn_ranked (messagesWithReactions : list MessageWithReactions) :
  ranked (sort compareFn messagesWithReactions)
  /\ (forall c t,
        filter (tied c t) (sort compareFn messagesWithReactions)
        = filter (tied c t) messagesWithReactions)
  /\ Permutation messagesWithReactions (sort compareFn messagesWithReactions).
Proof.
  split; [|split].
  - intros i j a b Hij Ha Hb. apply before_ranked.
    apply (sorted_positions
             (sort_sorted compareFn compareFn_trans compareFn_total
                messagesWithReactions) Hij Ha Hb).
  - intros c t. apply filter_sort. apply tied_not_separated.
  - apply sort_perm.
Qed.

(** Being ranked at every pair of positions and being sorted by the
    comparator are the same. *)
Lemma ranked_iff_sorted (l : list MessageWithReactions) :
  ranked l <-> StronglySorted (before compareFn) l.
Proof.
  split.
  - induction l as [|x l IH]; intros H; constructor.
    + apply IH. intros i j a b Hij Ha Hb.
      apply (H (S i) (S j) a b); [lia | exact Ha | exact Hb].
    + apply Forall_forall. intros y Hy. apply before_ranked.
      destruct (In_nth_error l y Hy) as [n Hn].
      apply (H 0%nat (S n) x y); [lia | reflexivity | exact Hn].
  - intros H i j a b Hij Ha Hb. apply before_ranked.
    apply (sorted_positions H Hij Ha Hb).
Qed.

(** The result does not depend on the sorting algorithm: any ranked
    rearrangement that keeps fully tied messages in order is the list
    [sort] returns. *)
Lemma sort_is_the_stable_sort (l l' : list MessageWithReactions) :
  Permutation l l' ->
  StronglySorted (before compareFn) l' ->
  (forall c t, filter (tied c t) l' = filter (tied c t) l) ->
  l' = sort compareFn l.
Proof.
  intros P S F.
  apply (@stable_sorted_unique _ compareFn (Z * Z)%type
           (fun k => tied (fst k) (snd k))).
  - intros x. exists (reactions x, created_at x). unfold tied. simpl.
    now rewrite !Z.eqb_refl.
  - intros [c t] x y Hxy Hyx. unfold tied. simpl.
    rewrite !andb_true_iff, !Z.eqb_eq.
    apply before_ranked in Hxy. apply before_ranked in Hyx.
    unfold ranked_before in *. lia.
  - rewrite <- P. apply sort_perm.
  - exact S.
  - apply sort_sorted; [exact compareFn_trans | exact compareFn_total].
  - intros [c t]. simpl. rewrite F. symmetry.
    apply filter_sort. apply tied_not_separated.
Qed.

(** What [fetchMessages] leaves in [allMessages] is the previous list or a
    freshly sorted one, and it never throws. *)
Lemma fetchMessages_allMessages (creatorId : jsstring) (network : Network)
    (s : State) :
  exists s' trace,
    fetchMessages creatorId network s = (s', trace, Normal tt)
    /\ (allMessages s' = allMessages s
        \/ exists l, allMessages s' = sort compareFn l)
    /\ (trace = []
        \/ exists e, trace = [console_error (js "Error fetching messages:") e]).
Proof.
  unfold fetchMessages, finally, try_catch, mbind, await, set, get_state,
    throw, ret, emit.
  destruct (GET_feedback_filtered network creatorId _ _) as [r1|e1]; simpl.
  2:{ do 2 eexists. split; [reflexivity|]. split; [now left | right; eauto]. }
  destruct (ok r1); simpl.
  2:{ do 2 eexists. split; [reflexivity|]. split; [now left | right; eauto]. }
  destruct (response_json r1) as [d1|e1]; simpl.
  2:{ do 2 eexists. split; [reflexivity|]. split; [now left | right; eauto]. }
  destruct (GET_feedback_all network creatorId) as [r2|e2]; simpl.
  2:{ do 2 eexists. split; [reflexivity|]. split; [now left | right; eauto]. }
  destruct (ok r2); simpl.
  2:{ do 2 eexists. split; [reflexivity|]. split; [now left | now left]. }
  destruct (response_json r2) as [d2|e2]; simpl.
  2:{ do 2 eexists. split; [reflexivity|]. split; [now left | right; eauto]. }
  destruct (Promise_all _) as [l|e3]; simpl.
  2:{ do 2 eexists. split; [reflexivity|]. split; [now left | right; eauto]. }
  do 2 eexists. split; [reflexivity|]. split; [right; now exists l | now left].
Qed.

(** So a ranked [allMessages] stays ranked across fetches, starting from
    the empty list of the first render. *)
Lemma fetchMessages_keeps_ranking (creatorId : jsstring) (network : Network)
    (s : State) :
  StronglySorted (before compareFn) (allMessages s) ->
  StronglySorted (before compareFn)
    (allMessages (fst (fst (fetchMessages creatorId network s)))).
Proof.
  intros H.
  destruct (fetchMessages_allMessages creatorId network s)
    as (s' & trace & E & Hall & _).
  rewrite E. simpl. destruct Hall as [->|(l & ->)].
  - exact H.
  - apply sort_sorted; [exact compareFn_trans | exact compareFn_total].
Qed.

(** The pagination buttons keep the current page within
    [1 .. totalPages]. *)
Lemma page_buttons_in_range (s : State) :
  (1 <= currentPage s <= totalPages s)%Z ->
  (1 <= currentPage (onClick_previous s) <= totalPages (onClick_previous s))%Z
  /\ (1 <= currentPage (onClick_next s) <= totalPages (onClick_next s))%Z.
Proof.
  intros H. unfold onClick_previous, onClick_next.
  change (totalPages (setCurrentPage ?p s)) with (totalPages s).
  cbn [currentPage setCurrentPage]. lia.
Qed.

Lemma In_firstn (A : Type) (x : A) (n : nat) (l : list A) :
  In x (firstn n l) -> In x l.
Proof.
  intros H. rewrite <- (firstn_skipn n l). apply in_or_app. now left.
Qed.

Lemma is_hot_spec (m : MessageWithReactions) :
  is_hot m = true <-> (5 <= reactions m)%Z.
Proof. unfold is_hot, reactions. apply Z.leb_le. Qed.

Lemma hotPosts_firstn (s : State) :
  hotPosts s = firstn 4 (filter is_hot (allMessages s)).
Proof. unfold hotPosts. rewrite slice_nonneg by lia. reflexivity. Qed.






Lemma filteredMessages_setCurrentPage (p : Z) (s : State) :
  filteredMessages (setCurrentPage p s) = filteredMessages s.
Proof. reflexivity. Qed.

Lemma page_firstn (s : State) (p : Z) :
  (1 <= p)%Z ->
  page s p = firstn 10 (skipn (Z.to_nat ((p - 1) * 10)) (filteredMessages s)).
Proof.
  intros Hp. unfold page, paginatedMessages.
  rewrite filteredMessages_setCurrentPage. cbn [currentPage setCurrentPage].
  unfold MESSAGES_PER_PAGE. rewrite slice_nonneg by lia.
  f_equal. lia.
Qed.

(** C7: for a filtered list of length [n] and a current page [p] with
    [1 <= p <= ceil (n / 10)], the displayed page is the part of the
    filtered list from index [(p - 1) * 10] up to index [p * 10]; it has at
    most ten messages; and the pages [1 .. ceil (n / 10)], one after the
    other, are the filtered list. *)
Theorem pages_partition_filteredMessages (s : State) :
  let n := Z.of_nat (length (filteredMessages s)) in
  (10 * (totalPages s - 1) < n <= 10 * totalPages s)%Z
  /\ (forall p, (1 <= p <= totalPages s)%Z ->
        page s p
        = firstn 10 (skipn (Z.to_nat ((p - 1) * 10)) (filteredMessages s))
        /\ (length (page s p) <= 10)%nat)
  /\ concat (map (page s) (pages s)) = filteredMessages s.
Proof.
  intros n.
  assert (Hceil : (10 * (totalPages s - 1) < n <= 10 * totalPages s)%Z).
  { unfold totalPages, MESSAGES_PER_PAGE. apply Math_ceil_div_spec. lia. }
  split; [exact Hceil|]. split.
  - intros p [Hp _]. rewrite page_firstn by exact Hp.
    split; [reflexivity | apply firstn_le_length].
  - unfold pages. rewrite <- seq_shift, !map_map.
    rewrite (map_ext _ (fun i => firstn 10 (skipn (10 * i) (filteredMessages s)))).
    + rewrite concat_chunks. apply firstn_all2. subst n. lia.
    + intros i. rewrite page_firstn by lia. do 2 f_equal. lia.
Qed.

Lemma pages_partition_filteredMessages_witness :
  page DashboardSample.long_state 3
  = firstn 10 (skipn 20 DashboardSample.twenty_three)
  /\ length (page DashboardSample.long_state 3) = 3%nat
  /\ totalPages DashboardSample.long_state = 3%Z.
Proof.
  destruct (pages_partition_filteredMessages DashboardSample.long_state)
    as (_ & Hpage & _).
  destruct (Hpage 3%Z) as [E _].
  - vm_compute. split; intros H; discriminate H.
  - split; [exact E|]. split; reflexivity.
Defined.

Lemma filter_andb (A : Type) (f g : A -> bool) (l : list A) :
  filter (fun x => f x && g x) l = filter f (filter g l).
Proof.
  induction l as [|x l IH]; [reflexivity|]. simpl.
  destruct (g x) eqn:G; simpl.
  - rewrite andb_true_r. destruct (f x); now rewrite IH.
  - now rewrite andb_false_r.
Qed.



Lemma has_reply_negb (m : MessageWithReactions) :
  has_reply m = negb (has_no_reply m).
Proof.
  unfold has_reply, has_no_reply. now destruct (reply m) as [[|r l]|].
Qed.



(** The four handlers that alert share one shape. *)
Lemma alerting_handler (A : Type) (request : Completion (Response A))
    (then_ : M unit) (failed label shown : jsstring) (e : Thrown) (s : State) :
  request_failure request failed = Some e ->
  try_catch
    (mbind (await request)
       (fun response =>
          if negb (ok response) then throw (Error failed) else then_))
    (fun error =>
       mbind (emit (console_error label error))
         (fun _ => emit (alert shown))) s
  = (s, [console_error label e; alert shown], Normal tt).
Proof.
  unfold request_failure, try_catch, mbind, await, throw, emit.
  destruct request as [response|e']; simpl.
  - destruct (ok response); simpl; [discriminate|].
    intros H; inversion H; subst. reflexivity.
  - intros H; inversion H; subst. reflexivity.
Qed.

(** C8, as stated, fails: with every request rejected, fetching the
    messages and submitting the support form are caught and logged, and
    neither raises an alert; the form shows the error in its own state. *)
Lemma fetch_and_submit_failures_do_not_alert :
  fetchMessages (js "creator-1") DashboardSample.offline initial
  = (setIsLoading false (setIsLoading true initial),
     [console_error (js "Error fetching messages:")
        {| thrown_message := Some (js "Failed to fetch") |}],
     Normal tt)
  /\ handleSubmitSupportFeedback DashboardSample.offline DashboardSample.drafted
     = (setSupportSubmitting false
          (setSupportError (Some (js "Failed to fetch"))
             (setSupportError None
                (setSupportSubmitting true DashboardSample.drafted))),
        [console_error (js "Error submitting creator feedback:")
           {| thrown_message := Some (js "Failed to fetch") |}],
        Normal tt)
  /\ existsb is_alert
       [console_error (js "Error fetching messages:")
          {| thrown_message := Some (js "Failed to fetch") |}] = false
  /\ existsb is_alert
       [console_error (js "Error submitting creator feedback:")
          {| thrown_message := Some (js "Failed to fetch") |}] = false.
Proof. repeat split; vm_compute; reflexivity. Qed.

(** C8 (amended): a failed request (a rejected [fetch] or a response that is
    not ok) when marking reviewed, deleting, replying or toggling the
    visibility of a reply is caught, logged and shown in a blocking alert,
    and the state is left as it was.  A failure while fetching the
    messages is caught and logged, and [fetchMessages] neither throws nor
    alerts.  A failure while submitting creator feedback is caught and
    logged, and shown through the form's [supportError] instead of an
    alert. *)
Theorem failures_are_caught (creatorId : jsstring) (network : Network)
    (s : State) :
  (forall id reviewed e,
      request_failure (PATCH_feedback network id reviewed)
        (js "Failed to update message") = Some e ->
      handleMarkReviewed creatorId network id reviewed s
      = (s, [console_error (js "Error updating message:") e;
             alert (js "Failed to update message")], Normal tt))
  /\ (forall id e,
        request_failure (DELETE_feedback network id)
          (js "Failed to delete message") = Some e ->
        handleDelete creatorId network id s
        = (s, [console_error (js "Error deleting message:") e;
               alert (js "Failed to delete message")], Normal tt))
  /\ (forall messageId replyText isPublic e,
        request_failure (POST_replies network messageId replyText isPublic)
          (js "Failed to submit reply") = Some e ->
        handleReply creatorId network messageId replyText isPublic s
        = (s, [console_error (js "Error submitting reply:") e;
               alert (js "Failed to submit reply")], Normal tt))
  /\ (forall replyId isPublic e,
        request_failure (PATCH_replies network replyId isPublic)
          (js "Failed to update reply visibility") = Some e ->
        handleToggleReplyVisibility creatorId network replyId isPublic s
        = (s, [console_error (js "Error updating reply visibility:") e;
               alert (js "Failed to update reply visibility")], Normal tt))
  /\ (forall e,
        request_failure
          (GET_feedback_filtered network creatorId (filter_ s)
             (productCategoryFilter s))
          (js "Failed to fetch messages") = Some e ->
        fetchMessages creatorId network s
        = (setIsLoading false (setIsLoading true s),
           [console_error (js "Error fetching messages:") e], Normal tt))
  /\ (exists s' trace,
        fetchMessages creatorId network s = (s', trace, Normal tt)
        /\ existsb is_alert trace = false)
  /\ (forall e,
        Spec.blank (supportMessage s) = false ->
        submit_failure
          (POST_creator_feedback network (supportCategory s)
             (or_undefined (trim (supportSubject s)))
             (trim (supportMessage s))) = Some e ->
        exists s',
          handleSubmitSupportFeedback network s
          = (s', [console_error (js "Error submitting creator feedback:") e],
             Normal tt)
          /\ supportError s'
             = Some (or_else (thrown_message e)
                       (js "Something went wrong. Please try again."))
          /\ supportSubmitting s' = false).
Proof.
  split; [|split; [|split; [|split; [|split; [|split]]]]].
  - intros id reviewed e H. now apply alerting_handler.
  - intros id e H. now apply alerting_handler.
  - intros messageId replyText isPublic e H. now apply alerting_handler.
  - intros replyId isPublic e H. now apply alerting_handler.
  - intros e. unfold request_failure, fetchMessages, finally, try_catch,
      mbind, await, set, get_state, throw, emit.
    cbn [filter_ productCategoryFilter setIsLoading].
    destruct (GET_feedback_filtered network creatorId _ _) as [r|e']; simpl.
    + destruct (ok r); simpl; [discriminate|].
      intros H; inversion H; subst. reflexivity.
    + intros H; inversion H; subst. reflexivity.
  - destruct (fetchMessages_allMessages creatorId network s)
      as (s' & trace & E & _ & [->|(e & ->)]);
      exists s'; eexists; (split; [exact E | reflexivity]).
  - intros e Hb. unfold submit_failure, handleSubmitSupportFeedback, finally,
      try_catch, mbind, await, set, get_state, throw, emit.
    simpl. rewrite JSFacts.trim_truthy, Hb. simpl.
    destruct (POST_creator_feedback network _ _ _) as [r|e']; simpl.
    + destruct (ok r); simpl; [discriminate|].
      intros H; inversion H; subst. eexists. split; [reflexivity|].
      split; reflexivity.
    + intros H; inversion H; subst. eexists. split; [reflexivity|].
      split; reflexivity.
Qed.

Lemma failures_are_caught_witness :
  handleDelete (js "creator-1") DashboardSample.offline (js "m1") initial
  = (initial,
     [console_error (js "Error deleting message:")
        {| thrown_message := Some (js "Failed to fetch") |};
      alert (js "Failed to delete message")],
     Normal tt).
Proof.
  destruct (failures_are_caught (js "creator-1") DashboardSample.offline initial)
    as (_ & Hdelete & _).
  apply Hdelete. reflexivity.
Defined.

End DashboardFacts.

(** ** More about the creator-feedback route *)
Module RouteMore.

Import Route Spec JSFacts RouteFacts.

Lemma POST_catch_status (e : Thrown) :
  (status (POST_catch e) = 401%Z \/ status (POST_catch e) = 500%Z)
  /\ exists msg, body (POST_catch e) = ErrorBody msg.
Proof.
  unfold POST_catch. destruct (includes _ _); simpl; eauto.
Qed.

(** X1: the route answers with one of five statuses, 201, 400, 401, 404 or
    500; a 201 carries the stored record and every other answer carries an
    error message. *)
Theorem status_is_one_of_five (w : World) (request : NextRequest) :
  (status (POST w request) = 201%Z
   /\ exists row, body (POST w request) = DataBody row)
  \/ (In (status (POST w request)) [400; 401; 404; 500]%Z
      /\ exists msg, body (POST w request) = ErrorBody msg).
Proof.
  assert (Hcatch : forall e,
             In (status (POST_catch e)) [400; 401; 404; 500]%Z
             /\ exists msg, body (POST_catch e) = ErrorBody msg).
  { intros e. destruct (POST_catch_status e) as [[H|H] Hb]; rewrite H;
      (split; [simpl; tauto | exact Hb]). }
  unfold POST, POST_try, bind.
  destruct (requireCreator w) as [auth|e]; [|right; apply Hcatch].
  destruct (companyId_missing auth); [right; simpl; eauto 10|].
  destruct (json request) as [b|e]; [|right; apply Hcatch].
  destruct (category_rejected _); [right; simpl; eauto 10|].
  destruct (message_rejected _); [right; simpl; eauto 10|].
  destruct (getCreatorForCompany w _) as [[creator|]|e];
    [|right; simpl; eauto 10|right; apply Hcatch].
  destruct (subject_trim _) as [t|e]; [|right; apply Hcatch].
  destruct (Supabase.insert _ _) as [row|err]; [left|right]; simpl; eauto 10.
Qed.

(** X2: a caller [requireCreator] accepts without a company id is answered
    500 "Company ID missing" before the body is read, so also when the
    body cannot be parsed. *)
Theorem missing_company_is_500 (w : World) (request : NextRequest) (auth : Auth) :
  requireCreator w = Normal auth ->
  companyId auth = None \/ companyId auth = Some [] ->
  POST w request = respond [] (ErrorBody (js "Company ID missing")) 500.
Proof.
  intros Ha Hc. unfold POST, POST_try. rewrite Ha. simpl bind.
  unfold companyId_missing. now destruct Hc as [->| ->].
Qed.

Lemma missing_company_is_500_witness :
  POST MoreSample.no_company MoreSample.unparseable
  = respond [] (ErrorBody (js "Company ID missing")) 500.
Proof.
  apply (@missing_company_is_500 MoreSample.no_company MoreSample.unparseable
           {| companyId := None; userId := Some (js "user_1") |}).
  - reflexivity.
  - now left.
Defined.

(** X3: a valid submission of an authenticated caller whose company has no
    creator record is answered 404 "Creator not found for company",
    whatever the subject is. *)
Theorem unknown_creator_is_404 (w : World) (request : NextRequest)
    (auth : Auth) (body : JsValue) :
  requireCreator w = Normal auth ->
  companyId_missing auth = false ->
  json request = Normal body ->
  category_allowed body ->
  message_present body ->
  getCreatorForCompany w (companyId_of auth) = Normal None ->
  POST w request
  = respond [] (ErrorBody (js "Creator not found for company")) 404.
Proof.
  intros Ha Hc Hj Hcat Hmsg Hg.
  rewrite (POST_authenticated w request Ha Hc Hj).
  apply category_rejected_false_iff in Hcat. rewrite Hcat.
  apply message_rejected_false_iff in Hmsg. rewrite Hmsg.
  rewrite Hg. reflexivity.
Qed.

Lemma unknown_creator_is_404_witness :
  POST MoreSample.no_record (Sample.request_of MoreSample.numeric_subject)
  = respond [] (ErrorBody (js "Creator not found for company")) 404.
Proof.
  apply (@unknown_creator_is_404 MoreSample.no_record
           (Sample.request_of MoreSample.numeric_subject)
           MoreSample.signed_in_auth MoreSample.numeric_subject).
  - reflexivity.
  - reflexivity.
  - reflexivity.
  - exists (js "bug"). split; [reflexivity | now left].
  - exists (js "It fails"). split; reflexivity.
  - reflexivity.
Defined.

(** X4: a subject that is present and is neither null nor a string (a
    number, a boolean, an array, an object) makes an otherwise valid
    submission of a known creator fail with 500 "Internal server error",
    logged by the catch block; nothing is answered 400 for it. *)
Theorem non_string_subject_is_500 (w : World) (request : NextRequest)
    (auth : Auth) (body : JsValue) (creator : Creator) :
  requireCreator w = Normal auth ->
  companyId_missing auth = false ->
  json request = Normal body ->
  category_allowed body ->
  message_present body ->
  getCreatorForCompany w (companyId_of auth) = Normal (Some creator) ->
  ~ subject_trimmable (get body (js "subject")) ->
  POST w request
  = respond [js "Error handling POST /api/creator-feedback:"]
      (ErrorBody (js "Internal server error")) 500.
Proof.
  intros Ha Hc Hj Hcat Hmsg Hg Hsub.
  rewrite (POST_authenticated w request Ha Hc Hj).
  apply category_rejected_false_iff in Hcat. rewrite Hcat.
  apply message_rejected_false_iff in Hmsg. rewrite Hmsg.
  rewrite Hg. simpl bind. unfold subject_trimmable in Hsub.
  destruct (get body (js "subject")) as [[| | |s| |]|]; simpl;
    try reflexivity; exfalso; apply Hsub; eauto.
Qed.

Lemma non_string_subject_is_500_witness :
  POST Sample.signed_in (Sample.request_of MoreSample.numeric_subject)
  = respond [js "Error handling POST /api/creator-feedback:"]
      (ErrorBody (js "Internal server error")) 500.
Proof.
  apply (@non_string_subject_is_500 Sample.signed_in
           (Sample.request_of MoreSample.numeric_subject)
           MoreSample.signed_in_auth MoreSample.numeric_subject Sample.creator).
  - reflexivity.
  - reflexivity.
  - reflexivity.
  - exists (js "bug"). split; [reflexivity | now left].
  - exists (js "It fails"). split; reflexivity.
  - reflexivity.
  - intros [H|[H|(s & H)]]; vm_compute in H; discriminate H.
Defined.

(** X5: when the database fails the insert of a valid submission, the
    answer is 500 "Failed to submit feedback" and the failure is logged. *)
Theorem database_fault_is_500 (w : World) (request : NextRequest)
    (auth : Auth) (body : JsValue) (creator : Creator) (fault : jsstring) :
  requireCreator w = Normal auth ->
  companyId_missing auth = false ->
  json request = Normal body ->
  category_allowed body ->
  message_present body ->
  subject_trimmable (get body (js "subject")) ->
  getCreatorForCompany w (companyId_of auth) = Normal (Some creator) ->
  Supabase.fault (supabaseAdmin w) = Some fault ->
  POST w request
  = respond [js "Error inserting creator feedback:"]
      (ErrorBody (js "Failed to submit feedback")) 500.
Proof.
  intros Ha Hc Hj Hcat Hmsg Hsub Hg Hf.
  rewrite (POST_authenticated w request Ha Hc Hj).
  apply category_rejected_false_iff in Hcat. rewrite Hcat.
  apply message_rejected_false_iff in Hmsg. rewrite Hmsg.
  rewrite Hg. simpl bind.
  assert (Hs : exists t, subject_trim (get body (js "subject")) = Normal t).
  { destruct Hsub as [->|[->|(x & ->)]]; simpl; eauto. }
  destruct Hs as (t & ->). simpl bind.
  unfold Supabase.insert. rewrite Hf. reflexivity.
Qed.

Lemma database_fault_is_500_witness :
  POST MoreSample.database_down (Sample.request_of Sample.plain)
  = respond [js "Error inserting creator feedback:"]
      (ErrorBody (js "Failed to submit feedback")) 500.
Proof.
  apply (@database_fault_is_500 MoreSample.database_down
           (Sample.request_of Sample.plain) MoreSample.signed_in_auth
           Sample.plain Sample.creator (js "connection refused")).
  - reflexivity.
  - reflexivity.
  - reflexivity.
  - exists (js "bug"). split; [reflexivity | now left].
  - exists (js "It fails"). split; reflexivity.
  - right; right. exists (js "Login"). reflexivity.
  - reflexivity.
  - reflexivity.
Defined.

(** The allow-list of the route is the CHECK constraint of the table. *)
Lemma allow_list_is_check_constraint (s : jsstring) :
  ALLOWED_CATEGORIES_includes (Some (JString s)) = Supabase.category_check s.
Proof. reflexivity. Qed.

(** X6: the route answers "Failed to submit feedback" only when the
    database itself fails: what the route inserts always passes the CHECK
    constraint of the table on [category]. *)
Theorem insert_fails_only_by_database_fault (w : World) (request : NextRequest) :
  body (POST w request) = ErrorBody (js "Failed to submit feedback") ->
  Supabase.fault (supabaseAdmin w) <> None.
Proof.
  assert (Hcatch : forall e,
             body (POST_catch e) <> ErrorBody (js "Failed to submit feedback")).
  { intros e. unfold POST_catch. destruct (includes _ _); simpl;
      intros H; vm_compute in H; discriminate H. }
  unfold POST, POST_try, bind.
  destruct (requireCreator w) as [auth|e]; [|intros H; now apply Hcatch in H].
  destruct (companyId_missing auth);
    [simpl; intros H; vm_compute in H; discriminate H|].
  destruct (json request) as [b|e]; [|intros H; now apply Hcatch in H].
  destruct (category_rejected _) eqn:Hcat;
    [simpl; intros H; vm_compute in H; discriminate H|].
  destruct (message_rejected _);
    [simpl; intros H; vm_compute in H; discriminate H|].
  destruct (getCreatorForCompany w _) as [[creator|]|e];
    [|simpl; intros H; vm_compute in H; discriminate H
     |intros H; now apply Hcatch in H].
  destruct (subject_trim _) as [t|e]; [|intros H; now apply Hcatch in H].
  unfold Supabase.insert.
  destruct (Supabase.fault (supabaseAdmin w)); [intros _; discriminate|].
  cbn [Table.category].
  apply category_rejected_false_iff in Hcat. destruct Hcat as (c & -> & Hin).
  cbn [string_of]. rewrite <- allow_list_is_check_constraint.
  unfold ALLOWED_CATEGORIES_includes.
  apply existsb_jsstring_eqb in Hin. rewrite Hin.
  simpl. intros H; discriminate H.
Qed.

Lemma insert_fails_only_by_database_fault_witness :
  Supabase.fault (supabaseAdmin MoreSample.database_down) <> None.
Proof.
  apply (@insert_fails_only_by_database_fault MoreSample.database_down
           (Sample.request_of Sample.plain)).
  reflexivity.
Defined.

Lemma POST_catch_401 (e : Thrown) :
  status (POST_catch e) = 401%Z ->
  exists m, thrown_message e = Some m /\ includes m (js "Unauthorized") = true.
Proof.
  unfold POST_catch. destruct (thrown_message e) as [m|].
  - destruct (includes m _) eqn:E; simpl; [eauto | discriminate].
  - simpl. discriminate.
Qed.

(** X7: the route answers 401 only when [requireCreator], [request.json]
    or [getCreatorForCompany] threw an error whose message contains
    "Unauthorized"; no validation failure and no database failure is
    answered 401. *)
Theorem no_401_without_thrown_Unauthorized (w : World) (request : NextRequest) :
  status (POST w request) = 401%Z ->
  exists e m,
    (requireCreator w = Throw e
     \/ json request = Throw e
     \/ exists auth, requireCreator w = Normal auth
                     /\ getCreatorForCompany w (companyId_of auth) = Throw e)
    /\ thrown_message e = Some m
    /\ includes m (js "Unauthorized") = true.
Proof.
  unfold POST, POST_try, bind.
  destruct (requireCreator w) as [auth|e] eqn:Ha.
  2:{ intros H. destruct (POST_catch_401 e H) as (m & Hm & Hi).
      exists e, m. auto. }
  destruct (companyId_missing auth); [simpl; discriminate|].
  destruct (json request) as [b|e] eqn:Hj.
  2:{ intros H. destruct (POST_catch_401 e H) as (m & Hm & Hi).
      exists e, m. auto. }
  destruct (category_rejected _); [simpl; discriminate|].
  destruct (message_rejected _); [simpl; discriminate|].
  destruct (getCreatorForCompany w _) as [[creator|]|e] eqn:Hg;
    [|simpl; discriminate|].
  2:{ intros H. destruct (POST_catch_401 e H) as (m & Hm & Hi).
      exists e, m. split; [|auto]. right; right. now exists auth. }
  destruct (get (nullish_default b) (js "subject")) as [[| | |x| |]|];
    simpl; try discriminate;
    destruct (Supabase.insert _ _); simpl; discriminate.
Qed.

Lemma no_401_without_thrown_Unauthorized_witness :
  exists e m,
    (requireCreator Sample.signed_out = Throw e
     \/ json (Sample.request_of Sample.plain) = Throw e
     \/ exists auth, requireCreator Sample.signed_out = Normal auth
                     /\ getCreatorForCompany Sample.signed_out (companyId_of auth)
                        = Throw e)
    /\ thrown_message e = Some m
    /\ includes m (js "Unauthorized") = true.
Proof.
  apply (@no_401_without_thrown_Unauthorized Sample.signed_out
           (Sample.request_of Sample.plain)).
  reflexivity.
Defined.

(** X8: a body that cannot be parsed is not answered 400: an authenticated
    caller gets 500 "Internal server error", or 401 when the message of
    the parse error happens to contain "Unauthorized". *)
Theorem unparseable_body_is_500_or_401 (w : World) (request : NextRequest)
    (auth : Auth) (e : Thrown) :
  requireCreator w = Normal auth ->
  companyId_missing auth = false ->
  json request = Throw e ->
  ((forall m, thrown_message e = Some m ->
              includes m (js "Unauthorized") = false) ->
   POST w request
   = respond [js "Error handling POST /api/creator-feedback:"]
       (ErrorBody (js "Internal server error")) 500)
  /\ (forall m, thrown_message e = Some m ->
                includes m (js "Unauthorized") = true ->
      POST w request
      = respond [js "Error handling POST /api/creator-feedback:"]
          (ErrorBody (js "Unauthorized")) 401).
Proof.
  intros Ha Hc Hj. unfold POST, POST_try. rewrite Ha. simpl bind.
  rewrite Hc, Hj. simpl bind. unfold POST_catch. split.
  - intros H. destruct (thrown_message e) as [m|]; [|reflexivity].
    now rewrite (H m eq_refl).
  - intros m -> Hi. now rewrite Hi.
Qed.

Lemma unparseable_body_is_500_or_401_witness :
  POST Sample.signed_in MoreSample.unparseable
  = respond [js "Error handling POST /api/creator-feedback:"]
      (ErrorBody (js "Unauthorized")) 401.
Proof.
  destruct (@unparseable_body_is_500_or_401 Sample.signed_in
              MoreSample.unparseable MoreSample.signed_in_auth
              {| thrown_message :=
                   Some (js "Unexpected token 'U', Unauthorized is not valid JSON") |}
              eq_refl eq_refl eq_refl) as [_ H].
  apply (H (js "Unexpected token 'U', Unauthorized is not valid JSON")).
  - reflexivity.
  - vm_compute. reflexivity.
Defined.

Lemma insert_Data_identity (db : Supabase.Database) (r : Table.Insert)
    (row : Row.t) :
  Supabase.insert db r = Supabase.Data row ->
  Row.creator_id row = Table.creator_id r
  /\ Row.company_id row = Table.company_id r
  /\ Row.user_id row = Table.user_id r
  /\ Row.id row = Supabase.gen_random_uuid db
  /\ Row.created_at row = Supabase.now db.
Proof.
  unfold Supabase.insert. destruct (Supabase.fault db); [discriminate|].
  destruct (Supabase.category_check _); [|discriminate].
  intros H; inversion H; subst; simpl. auto.
Qed.

(** X9: in every record the route answers with 201, the company and the
    user are those of the authenticated caller and the creator is the
    record found for that company; the id and the creation time are the
    database's.  Nothing in the body sets any of them. *)
Theorem stored_identity_comes_from_auth (w : World) (request : NextRequest) :
  status (POST w request) = 201%Z ->
  exists auth creator row,
    requireCreator w = Normal auth
    /\ getCreatorForCompany w (companyId_of auth) = Normal (Some creator)
    /\ body (POST w request) = DataBody row
    /\ companyId auth = Some (Row.company_id row)
    /\ Row.user_id row = userId auth
    /\ Row.creator_id row = creator_id creator
    /\ Row.id row = Supabase.gen_random_uuid (supabaseAdmin w)
    /\ Row.created_at row = Supabase.now (supabaseAdmin w).
Proof.
  intros H201.
  destruct (POST_201_inv w request H201)
    as (auth & b & creator & row & Ha & Hc & Hj & _ & _ & Hg & _ & Hi & HP).
  exists auth, creator, row. rewrite HP.
  apply insert_Data_identity in Hi.
  cbn [Table.creator_id Table.company_id Table.user_id] in Hi.
  destruct Hi as (H1 & H2 & H3 & H4 & H5).
  repeat split; auto.
  rewrite H2. unfold companyId_missing, companyId_of in *.
  destruct (companyId auth); [reflexivity | discriminate].
Qed.

Lemma stored_identity_comes_from_auth_witness :
  exists row,
    body (POST Sample.signed_in (Sample.request_of MoreSample.plain_with_extras))
    = DataBody row
    /\ Row.company_id row = js "biz_1"
    /\ Row.creator_id row = js "creator-1".
Proof.
  destruct (@stored_identity_comes_from_auth Sample.signed_in
              (Sample.request_of MoreSample.plain_with_extras) eq_refl)
    as (auth & creator & row & Ha & Hg & Hb & Hc & _ & Hcr & _).
  exists row. split; [exact Hb|].
  vm_compute in Hb. inversion Hb; subst. split; reflexivity.
Defined.

(** X10: the answer depends on the body only through its [category],
    [message] and [subject]: two bodies that agree on the three get the
    same response. *)
Theorem POST_reads_three_fields (w : World) (b1 b2 : JsValue) :
  get b1 (js "category") = get b2 (js "category") ->
  get b1 (js "message") = get b2 (js "message") ->
  get b1 (js "subject") = get b2 (js "subject") ->
  POST w {| json := Normal b1 |} = POST w {| json := Normal b2 |}.
Proof.
  intros Hc Hm Hs. unfold POST, POST_try, bind.
  destruct (requireCreator w) as [auth|e]; [|reflexivity].
  destruct (companyId_missing auth); [reflexivity|].
  cbn [json]. rewrite !get_nullish_default, Hc, Hm, Hs. reflexivity.
Qed.

Lemma POST_reads_three_fields_witness :
  POST Sample.signed_in {| json := Normal Sample.plain |}
  = POST Sample.signed_in {| json := Normal MoreSample.plain_with_extras |}.
Proof.
  apply (@POST_reads_three_fields Sample.signed_in Sample.plain
           MoreSample.plain_with_extras); reflexivity.
Defined.

(** X11: a body that parses to something that is not an object ([null], a
    boolean, a number, a string, an array) is answered 400
    "Invalid category" for an authenticated caller, like an empty
    object. *)
Theorem non_object_body_is_400 (w : World) (request : NextRequest)
    (auth : Auth) (body : JsValue) :
  requireCreator w = Normal auth ->
  companyId_missing auth = false ->
  json request = Normal body ->
  (forall members, body = JObject members -> members = []) ->
  POST w request = respond [] (ErrorBody (js "Invalid category")) 400.
Proof.
  intros Ha Hc Hj Hb. rewrite (POST_authenticated w request Ha Hc Hj).
  assert (E : get body (js "category") = None).
  { destruct body as [| | | | |ms]; try reflexivity.
    now rewrite (Hb ms eq_refl). }
  rewrite E. reflexivity.
Qed.

Lemma non_object_body_is_400_witness :
  POST Sample.signed_in (Sample.request_of (JArray [JString (js "bug")]))
  = respond [] (ErrorBody (js "Invalid category")) 400.
Proof.
  apply (@non_object_body_is_400 Sample.signed_in
           (Sample.request_of (JArray [JString (js "bug")]))
           MoreSample.signed_in_auth (JArray [JString (js "bug")])).
  - reflexivity.
  - reflexivity.
  - reflexivity.
  - intros members H. discriminate H.
Defined.

End RouteMore.

(** ** The support form against the route *)
Module FormToRoute.

Import Route Spec JSFacts RouteFacts Dashboard DashboardView.

Lemma trimStart_fixed (s : jsstring) :
  starts_with_whitespace s = false -> trimStart s = s.
Proof. destruct s as [|c s]; simpl; [reflexivity | now intros ->]. Qed.

Lemma trim_fixed (s : jsstring) : tidy s = true -> trim s = s.
Proof.
  unfold tidy, ends_with_whitespace. rewrite andb_true_iff, !negb_true_iff.
  intros [Hs He]. unfold trim, trimEnd.
  rewrite (trimStart_fixed s Hs), (trimStart_fixed (rev s) He).
  apply rev_involutive.
Qed.

(** Trimming twice is trimming once. *)
Lemma trim_idempotent (s : jsstring) : trim (trim s) = trim s.
Proof. apply trim_fixed, trim_tidy. Qed.

Lemma blank_trim (s : jsstring) : blank (trim s) = blank s.
Proof.
  destruct (blank s) eqn:B.
  - apply trim_nil_iff in B. now rewrite B.
  - destruct (blank (trim s)) eqn:B'; [|reflexivity].
    apply trim_nil_iff in B'. rewrite trim_idempotent in B'.
    apply trim_nil_iff in B'. congruence.
Qed.

Lemma get_creator_feedback_body (category : jsstring)
    (subject : option jsstring) (message : jsstring) :
  get (creator_feedback_body category subject message) (js "category")
  = Some (JString category)
  /\ get (creator_feedback_body category subject message) (js "message")
     = Some (JString message)
  /\ get (creator_feedback_body category subject message) (js "subject")
     = match subject with
       | Some s => Some (JString s)
       | None => None
       end.
Proof. destruct subject; repeat split; reflexivity. Qed.

(** X12: what the support form sends is stored as sent.  For a form whose
    category is one of its four options and whose message is not blank,
    an authenticated creator with a creator record and a working database
    gets 201, and the stored category, message and subject are exactly the
    ones in the request: the trimmed message, and the trimmed subject or
    none when it is blank. *)
Theorem form_submission_is_stored_as_sent (w : World) (s : State)
    (auth : Auth) (creator : Creator) :
  requireCreator w = Normal auth ->
  companyId_missing auth = false ->
  getCreatorForCompany w (companyId_of auth) = Normal (Some creator) ->
  Supabase.fault (supabaseAdmin w) = None ->
  In (supportCategory s) supportCategories ->
  blank (supportMessage s) = false ->
  exists row,
    POST w (support_request s) = respond [] (DataBody row) 201
    /\ Row.category row = supportCategory s
    /\ Row.message row = trim (supportMessage s)
    /\ Row.subject row = or_undefined (trim (supportSubject s)).
Proof.
  intros Ha Hc Hg Hf Hcat Hmsg.
  rewrite (POST_authenticated w (support_request s) Ha Hc eq_refl).
  destruct (get_creator_feedback_body (supportCategory s)
              (or_undefined (trim (supportSubject s)))
              (trim (supportMessage s))) as (Ec & Em & Es).
  rewrite Ec, Em, Es.
  assert (Hcr : category_rejected (Some (JString (supportCategory s))) = false).
  { apply category_rejected_false_iff. eauto. }
  assert (Hmr : message_rejected (Some (JString (trim (supportMessage s)))) = false).
  { apply message_rejected_false_iff. eexists. split; [reflexivity|].
    now rewrite blank_trim. }
  rewrite Hcr, Hmr, Hg. simpl bind.
  assert (Hck : Supabase.category_check (supportCategory s) = true).
  { unfold Supabase.category_check. now apply existsb_jsstring_eqb. }
  unfold or_undefined.
  destruct (truthy_string (trim (supportSubject s))) eqn:T; simpl bind;
    unfold Supabase.insert; rewrite Hf; cbn [Table.category string_of];
    rewrite Hck; eexists; (split; [reflexivity|]); simpl;
    rewrite !trim_idempotent; [rewrite T|]; auto.
Qed.

Lemma form_submission_is_stored_as_sent_witness :
  exists row,
    POST Sample.signed_in (support_request MoreSample.draft)
    = respond [] (DataBody row) 201
    /\ Row.category row = js "bug"
    /\ Row.message row = js "It fails"
    /\ Row.subject row = Some (js "Login").
Proof.
  apply (@form_submission_is_stored_as_sent Sample.signed_in MoreSample.draft
           MoreSample.signed_in_auth Sample.creator).
  - reflexivity.
  - reflexivity.
  - reflexivity.
  - reflexivity.
  - now left.
  - reflexivity.
Defined.

End FormToRoute.

(** ** More about the dashboard's derived values *)
Module DashboardMore.

Import JSArray Dashboard DashboardSpec DashboardView SortFacts SliceFacts
  DashboardFacts.

Lemma length_filter_split (A : Type) (f g : A -> bool) (l : list A) :
  (forall x, g x = negb (f x)) ->
  (length (filter f l) + length (filter g l) = length l)%nat.
Proof.
  intros H. induction l as [|x l IH]; [reflexivity|]. simpl.
  rewrite H. destruct (f x); simpl; lia.
Qed.

(** X13: the counters add up.  Every message is either pending or in the
    reviewed tab, so "Pending" plus the badge of the reviewed tab is
    "Total"; every message is either replied or in the inbox, so
    "Replied" plus the badge of the inbox is "Total"; and the reviewed tab
    holds at least the replied messages. *)
Theorem counters_add_up (s : State) :
  (length (pendingMessages s) + length (reviewedMessages s) = totalMessages s)%nat
  /\ (repliedMessages s + length (inboxMessages s) = totalMessages s)%nat
  /\ (repliedMessages s <= length (reviewedMessages s))%nat.
Proof.
  unfold pendingMessages, reviewedMessages, repliedMessages, inboxMessages,
    totalMessages.
  assert (H1 : (length (filter (fun m => negb (reviewed m) && has_no_reply m)
                          (messages s))
                + length (filter (fun m => has_reply m || reviewed m) (messages s))
                = length (messages s))%nat).
  { apply length_filter_split. intros m. rewrite has_reply_negb.
    now destruct (reviewed m), (has_no_reply m). }
  assert (H2 : (length (filter has_reply (messages s))
                + length (filter has_no_reply (messages s))
                = length (messages s))%nat).
  { apply length_filter_split. intros m. rewrite has_reply_negb.
    now destruct (has_no_reply m). }
  assert (H3 : (length (filter (fun m => negb (reviewed m) && has_no_reply m)
                          (messages s))
                <= length (filter has_no_reply (messages s)))%nat).
  { rewrite filter_andb. apply filter_length_le. }
  lia.
Qed.

(** X14: the messages counted by the "Need Attention" alert are the
    pending messages created more than three days before [now]; so they
    are at most as many as the pending ones, and each of them is in the
    inbox tab and unreviewed. *)
Theorem old_unanswered_are_pending (now : Z) (s : State) :
  oldUnansweredMessages now s
  = filter (fun m => (created_at m <? threeDaysAgo now)%Z) (pendingMessages s)
  /\ (length (oldUnansweredMessages now s) <= length (pendingMessages s))%nat
  /\ (forall m, In m (oldUnansweredMessages now s) ->
        In m (inboxMessages s) /\ reviewed m = false
        /\ (created_at m < now - 259200000)%Z).
Proof.
  assert (E : oldUnansweredMessages now s
              = filter (fun m => (created_at m <? threeDaysAgo now)%Z)
                  (pendingMessages s)).
  { unfold oldUnansweredMessages, pendingMessages. rewrite <- filter_andb.
    apply filter_ext. intros m.
    now destruct (has_no_reply m), (created_at m <? threeDaysAgo now)%Z,
      (reviewed m). }
  split; [exact E|]. split.
  - rewrite E. apply filter_length_le.
  - intros m Hm. rewrite E in Hm. apply filter_In in Hm. destruct Hm as [Hp Ho].
    unfold pendingMessages in Hp. apply filter_In in Hp.
    destruct Hp as [Hin Hp]. apply andb_true_iff in Hp. destruct Hp as [Hr Hn].
    split; [|split].
    + unfold inboxMessages. now apply filter_In.
    + now apply negb_true_iff in Hr.
    + apply Z.ltb_lt in Ho. unfold threeDaysAgo in Ho. lia.
Qed.

Lemma firstn_nil_iff (A : Type) (n : nat) (l : list A) :
  (0 < n)%nat -> (firstn n l = [] <-> l = []).
Proof.
  intros Hn. destruct n; [lia|]. destruct l; simpl; split; congruence.
Qed.

Lemma page_nil_iff (s : State) (p : Z) :
  (1 <= p)%Z ->
  (page s p = [] <-> (totalPages s < p)%Z).
Proof.
  intros Hp. rewrite page_firstn by exact Hp.
  rewrite firstn_nil_iff by lia. rewrite <- skipn_all_iff.
  pose proof (@Math_ceil_div_spec
                (Z.of_nat (length (filteredMessages s))) 10 ltac:(lia)) as H.
  unfold totalPages, MESSAGES_PER_PAGE. lia.
Qed.

(** X15: a page number from 1 on shows nothing exactly when it is beyond
    [totalPages]; every page [1 .. totalPages] shows at least one and at
    most ten messages. *)
Theorem page_is_empty_iff_beyond_totalPages (s : State) (p : Z) :
  (1 <= p)%Z ->
  (page s p = [] <-> (totalPages s < p)%Z)
  /\ ((p <= totalPages s)%Z -> (1 <= length (page s p) <= 10)%nat).
Proof.
  intros Hp. split; [now apply page_nil_iff|]. intros Hle. split.
  - destruct (page s p) eqn:E; [|simpl; lia].
    apply page_nil_iff in E; [lia | exact Hp].
  - rewrite page_firstn by exact Hp. apply firstn_le_length.
Qed.

Lemma page_is_empty_iff_beyond_totalPages_witness :
  page DashboardSample.long_state 4 = []
  <-> (totalPages DashboardSample.long_state < 4)%Z.
Proof.
  destruct (@page_is_empty_iff_beyond_totalPages DashboardSample.long_state 4)
    as [H _].
  - lia.
  - exact H.
Defined.

(** X16: on a page within [1 .. totalPages], the footer
    "Showing from to to of n" agrees with the page: [from] is at least 1,
    [to] is at most [n], the page holds [to - from + 1] messages, and its
    first message is number [from] of the filtered list. *)
Theorem showing_range_matches_page (s : State) :
  (1 <= currentPage s <= totalPages s)%Z ->
  (1 <= showing_from s <= showing_to s)%Z
  /\ (showing_to s <= Z.of_nat (length (filteredMessages s)))%Z
  /\ Z.of_nat (length (paginatedMessages s))
     = (showing_to s - showing_from s + 1)%Z
  /\ nth_error (paginatedMessages s) 0
     = nth_error (filteredMessages s) (Z.to_nat (showing_from s - 1)).
Proof.
  intros Hp.
  pose proof (@Math_ceil_div_spec
                (Z.of_nat (length (filteredMessages s))) 10 ltac:(lia)) as H.
  unfold totalPages in Hp.
  unfold showing_from, showing_to, paginatedMessages, MESSAGES_PER_PAGE in *.
  rewrite slice_nonneg by lia.
  replace (Z.to_nat (currentPage s * 10 - (currentPage s - 1) * 10)) with 10%nat
    by lia.
  split; [lia|]. split; [lia|]. split.
  - rewrite length_firstn, length_skipn. lia.
  - rewrite nth_error_firstn.
    change (0 <? 10)%nat with true. cbv iota.
    rewrite nth_error_skipn. f_equal. lia.
Qed.

Lemma showing_range_matches_page_witness :
  Z.of_nat (length (paginatedMessages (setCurrentPage 3 DashboardSample.long_state)))
  = (showing_to (setCurrentPage 3 DashboardSample.long_state)
     - showing_from (setCurrentPage 3 DashboardSample.long_state) + 1)%Z.
Proof.
  destruct (@showing_range_matches_page
              (setCurrentPage 3 DashboardSample.long_state))
    as (_ & _ & H & _).
  - vm_compute. split; intros H; discriminate H.
  - exact H.
Defined.

Lemma page_entry_shown (c T p : Z) :
  page_entry c T p <> NoEntry ->
  In p [1; 2; c - 1; c; c + 1; T - 1; T]%Z.
Proof.
  unfold page_entry.
  destruct (Z.eqb_spec p 1), (Z.eqb_spec p T), (Z.leb_spec (c - 1) p),
    (Z.leb_spec p (c + 1)), (Z.eqb_spec p 2), (Z.eqb_spec p (T - 1));
    simpl; intros Hshown; try congruence; lia.
Qed.

Lemma page_entry_button (c T p : Z) :
  (p = 1 \/ p = T \/ c - 1 <= p <= c + 1)%Z ->
  page_entry c T p = PageButton p.
Proof.
  unfold page_entry.
  destruct (Z.eqb_spec p 1), (Z.eqb_spec p T), (Z.leb_spec (c - 1) p),
    (Z.leb_spec p (c + 1)); simpl; intros Hshown; try reflexivity; lia.
Qed.

Lemma Array_from_1_In (n p : Z) : In p (Array_from_1 n) <-> (1 <= p <= n)%Z.
Proof.
  unfold Array_from_1. rewrite in_map_iff. split.
  - intros (i & <- & Hi). apply in_seq in Hi. lia.
  - intros Hp. exists (Z.to_nat p). split; [lia|]. apply in_seq. lia.
Qed.

Lemma Array_from_1_NoDup (n : Z) : NoDup (Array_from_1 n).
Proof.
  unfold Array_from_1. generalize (seq_NoDup (Z.to_nat n) 1).
  induction (seq 1 (Z.to_nat n)) as [|i l IH]; intros H; simpl; [constructor|].
  inversion H as [|? ? Hi Hl]; subst. constructor; [|now apply IH].
  rewrite in_map_iff. intros (j & Hj & Hin).
  apply Nat2Z.inj in Hj. now subst.
Qed.

Lemma filter_of_map (A B : Type) (f : A -> B) (p : B -> bool) (l : list A) :
  filter p (map f l) = map f (filter (fun x => p (f x)) l).
Proof.
  induction l as [|x l IH]; [reflexivity|]. simpl.
  destruct (p (f x)); simpl; now rewrite IH.
Qed.

(** What the callback of the row leaves, for any number of pages. *)
Lemma page_entries_short (s : State) :
  (length (page_entries s) <= 7)%nat
  /\ (forall p, In (PageButton p) (page_entries s) ->
        (1 <= p <= totalPages s)%Z)
  /\ ((1 <= currentPage s <= totalPages s)%Z ->
      In (PageButton 1) (page_entries s)
      /\ In (PageButton (currentPage s)) (page_entries s)
      /\ In (PageButton (totalPages s)) (page_entries s)).
Proof.
  unfold page_entries. set (c := currentPage s). set (T := totalPages s).
  split; [|split].
  - rewrite filter_of_map, length_map.
    apply (@NoDup_incl_length _ _ [1; 2; c - 1; c; c + 1; T - 1; T]%Z).
    + apply NoDup_filter, Array_from_1_NoDup.
    + intros p Hp. apply filter_In in Hp. destruct Hp as [_ Hp].
      apply page_entry_shown. intros E. now rewrite E in Hp.
  - intros p Hp. apply filter_In in Hp. destruct Hp as [Hp _].
    apply in_map_iff in Hp. destruct Hp as (q & Hq & Hin).
    apply Array_from_1_In in Hin.
    assert (page_entry c T q = PageButton q \/ page_entry c T q = Ellipsis
            \/ page_entry c T q = NoEntry) as [E|[E|E]].
    { unfold page_entry. repeat match goal with
        | |- context [if ?b then _ else _] => destruct b
        end; auto. }
    all: rewrite E in Hq; inversion Hq; subst; assumption.
  - intros Hc.
    assert (Hin : forall p, (1 <= p <= T)%Z ->
                    (p = 1 \/ p = T \/ c - 1 <= p <= c + 1)%Z ->
                    In (PageButton p)
                       (filter (fun e => match e with NoEntry => false | _ => true end)
                          (map (page_entry c T) (Array_from_1 T)))).
    { intros p Hp Hs. apply filter_In. split; [|reflexivity].
      apply in_map_iff. exists p. split; [now apply page_entry_button|].
      now apply Array_from_1_In. }
    repeat split; apply Hin; lia.
Qed.

(** X17: the page-number row.  It is rendered exactly when the list is
    loaded and has more than one page.  When it is rendered it shows at
    most seven entries, however many pages there are; every button is for
    a page within [1 .. totalPages]; and with the current page within that
    range it has a button for the first page, for the current page and for
    the last page. *)
Theorem pagination_row_is_short (s : State) :
  (pagination_row s <> None
   <-> isLoading s = false /\ (1 < totalPages s)%Z)
  /\ (forall row,
        pagination_row s = Some row ->
        (length row <= 7)%nat
        /\ (forall p, In (PageButton p) row -> (1 <= p <= totalPages s)%Z)
        /\ ((1 <= currentPage s <= totalPages s)%Z ->
            In (PageButton 1) row
            /\ In (PageButton (currentPage s)) row
            /\ In (PageButton (totalPages s)) row)).
Proof.
  assert (Hrow : forall row, pagination_row s = Some row ->
                   isLoading s = false /\ (1 < totalPages s)%Z
                   /\ row = page_entries s).
  { intros row. unfold pagination_row. destruct (isLoading s); [discriminate|].
    destruct (Nat.eqb _ 0); [discriminate|].
    destruct (Z.ltb_spec 1 (totalPages s)); [|discriminate].
    intros E; inversion E; auto. }
  split.
  - split.
    + destruct (pagination_row s) as [row|] eqn:E; [|intros H; now elim H].
      intros _. destruct (Hrow row eq_refl) as (Hl & Ht & _). auto.
    + intros [Hl Ht]. unfold pagination_row. rewrite Hl.
      pose proof (@Math_ceil_div_spec
                    (Z.of_nat (length (filteredMessages s))) 10 ltac:(lia)) as H.
      unfold totalPages, MESSAGES_PER_PAGE in Ht.
      destruct (Nat.eqb_spec (length (filteredMessages s)) 0) as [E|_]; [lia|].
      unfold totalPages, MESSAGES_PER_PAGE.
      destruct (Z.ltb_spec 1
                  (Math_ceil_div (Z.of_nat (length (filteredMessages s))) 10));
        [discriminate | lia].
  - intros row E. destruct (Hrow row E) as (_ & _ & ->).
    apply page_entries_short.
Qed.

Lemma pagination_row_is_short_witness :
  (pagination_row MoreSample.hundred
   = Some [PageButton 1; Ellipsis; PageButton 4; PageButton 5; PageButton 6;
           Ellipsis; PageButton 10]
   /\ (length [PageButton 1; Ellipsis; PageButton 4; PageButton 5; PageButton 6;
               Ellipsis; PageButton 10] <= 7)%nat)
  /\ (isLoading MoreSample.single_page = false
      /\ pagination_row MoreSample.single_page = None).
Proof.
  split.
  - split; [reflexivity|].
    destruct (pagination_row_is_short MoreSample.hundred) as [_ H].
    destruct (H [PageButton 1; Ellipsis; PageButton 4; PageButton 5;
                 PageButton 6; Ellipsis; PageButton 10] eq_refl) as [Hlen _].
    exact Hlen.
  - split; [reflexivity|].
    destruct (pagination_row_is_short MoreSample.single_page) as [[H _] _].
    destruct (pagination_row MoreSample.single_page) as [row|] eqn:E;
      [|reflexivity].
    exfalso. assert (Hne : Some row <> None) by discriminate.
    apply H in Hne. destruct Hne as [_ Ht]. vm_compute in Ht. discriminate Ht.
Defined.

(** X18: the Hot Posts section is never rendered empty: it appears only on
    the overview tab, with the hot posts, of which there is at least one;
    and on the overview tab it is missing exactly when no message has five
    reactions. *)
Theorem hotPostsSection_is_not_empty (s : State) :
  (forall shown, hotPostsSection s = Some shown ->
     activeTab s = overview /\ shown = hotPosts s /\ shown <> [])
  /\ (activeTab s = overview ->
      (hotPostsSection s = None
       <-> forall m, In m (allMessages s) -> (reactions m < 5)%Z)).
Proof.
  unfold hotPostsSection. rewrite hotPosts_firstn. split.
  - intros shown. destruct (activeTab s); try discriminate.
    destruct (filter is_hot (allMessages s)) as [|m l] eqn:E; simpl;
      [discriminate|].
    intros H; inversion H; subst. repeat split. discriminate.
  - intros ->. destruct (filter is_hot (allMessages s)) as [|m l] eqn:E; simpl.
    + split; [|reflexivity]. intros _ m Hm.
      destruct (Z.lt_ge_cases (reactions m) 5) as [H|H]; [exact H|].
      assert (Hin : In m (filter is_hot (allMessages s))).
      { apply filter_In. split; [exact Hm | now apply is_hot_spec]. }
      rewrite E in Hin. destruct Hin.
    + split; [discriminate|]. intros H.
      assert (Hin : In m (filter is_hot (allMessages s))) by (rewrite E; now left).
      apply filter_In in Hin. destruct Hin as [Hm Hh].
      apply is_hot_spec in Hh. specialize (H m Hm). lia.
Qed.

Lemma hotPostsSection_is_not_empty_witness :
  activeTab DashboardSample.five_hot_state = overview
  /\ firstn 4 DashboardSample.five_hot = hotPosts DashboardSample.five_hot_state
  /\ firstn 4 DashboardSample.five_hot <> [].
Proof.
  destruct (hotPostsSection_is_not_empty DashboardSample.five_hot_state)
    as [H _].
  apply H. reflexivity.
Defined.

Lemma StronglySorted_filter (A : Type) (R : A -> A -> Prop) (f : A -> bool)
    (l : list A) :
  StronglySorted R l -> StronglySorted R (filter f l).
Proof.
  induction 1 as [|x l Hs IH Hx]; simpl; [constructor|].
  destruct (f x); [|exact IH]. constructor; [exact IH|].
  rewrite Forall_forall in *. intros y Hy. apply Hx.
  now apply filter_In in Hy.
Qed.

Lemma StronglySorted_app_cross (A : Type) (R : A -> A -> Prop) (l1 l2 : list A) :
  StronglySorted R (l1 ++ l2) ->
  forall a b, In a l1 -> In b l2 -> R a b.
Proof.
  induction l1 as [|x l1 IH]; simpl; intros H a b Ha Hb; [destruct Ha|].
  inversion H as [|? ? Hs Hx]; subst. destruct Ha as [->|Ha].
  - rewrite Forall_forall in Hx. apply Hx. apply in_or_app. now right.
  - now apply IH.
Qed.

(** X19: when [allMessages] is ranked, as [fetchMessages] leaves it, the
    hot posts are the top of the ranking: every message shown stands
    before every message that is not shown, by reactions and then by
    recency. *)
Theorem hotPosts_are_top_ranked (s : State) :
  StronglySorted (before compareFn) (allMessages s) ->
  forall a b,
    In a (hotPosts s) -> In b (allMessages s) -> ~ In b (hotPosts s) ->
    ranked_before a b.
Proof.
  intros Hs a b Ha Hb Hnb.
  rewrite hotPosts_firstn in *.
  assert (H5 : (5 <= reactions a)%Z).
  { apply In_firstn, filter_In in Ha. now apply is_hot_spec. }
  destruct (is_hot b) eqn:Hh.
  - apply before_ranked.
    apply (@StronglySorted_app_cross _ (before compareFn)
             (firstn 4 (filter is_hot (allMessages s)))
             (skipn 4 (filter is_hot (allMessages s)))).
    + rewrite firstn_skipn. now apply StronglySorted_filter.
    + exact Ha.
    + assert (Hf : In b (filter is_hot (allMessages s))) by (now apply filter_In).
      rewrite <- (firstn_skipn 4) in Hf. apply in_app_or in Hf. tauto.
  - left. assert (~ (5 <= reactions b)%Z).
    { rewrite <- is_hot_spec. congruence. }
    lia.
Qed.

Lemma hotPosts_are_top_ranked_witness :
  ranked_before (DashboardSample.message_ "m1" (Some 10%Z) 50 false None)
                (DashboardSample.message_ "m5" (Some 10%Z) 10 false None).
Proof.
  apply (@hotPosts_are_top_ranked DashboardSample.five_hot_state).
  - change (allMessages DashboardSample.five_hot_state)
      with (sort compareFn DashboardSample.five_hot).
    apply sort_sorted; [exact compareFn_trans | exact compareFn_total].
  - now left.
  - simpl. tauto.
  - intros H. vm_compute in H.
    repeat (destruct H as [H|H]; [discriminate H|]). exact H.
Defined.

(** X20: the Replied badge of a card and the tabs agree, although they
    read the replies differently: a card shows the badge exactly when its
    message is kept out of the inbox tab, and then the message is in the
    reviewed tab. *)
Theorem replied_badge_agrees_with_tabs (s : State) (m : MessageWithReactions) :
  In m (messages s) ->
  (card_hasReply m = true <-> ~ In m (inboxMessages s))
  /\ (card_hasReply m = true -> In m (reviewedMessages s))
  /\ (card_hasReply m = false -> In m (inboxMessages s)).
Proof.
  intros Hm.
  assert (E : card_hasReply m = negb (has_no_reply m)).
  { unfold card_hasReply, card_reply, has_no_reply.
    now destruct (reply m) as [[|r l]|]. }
  unfold inboxMessages, reviewedMessages. rewrite !filter_In, E.
  rewrite has_reply_negb.
  destruct (has_no_reply m); simpl.
  - split; [split; [discriminate|]|split; [discriminate | tauto]].
    intros H. exfalso. apply H. tauto.
  - split; [split; [|reflexivity]|split; [tauto | discriminate]].
    intros _ [_ H]. discriminate H.
Qed.

Lemma replied_badge_agrees_with_tabs_witness :
  In (DashboardSample.message_ "answered" None 1 false
        (Some [DashboardSample.a_reply]))
     (reviewedMessages DashboardSample.mixed_state).
Proof.
  destruct (@replied_badge_agrees_with_tabs DashboardSample.mixed_state
              (DashboardSample.message_ "answered" None 1 false
                 (Some [DashboardSample.a_reply])))
    as (_ & H & _).
  - simpl. tauto.
  - apply H. reflexivity.
Defined.

Lemma Set_has_spec (x : jsstring) (set : list jsstring) :
  Set_has x set = true <-> In x set.
Proof. apply JSFacts.existsb_jsstring_eqb. Qed.

(** X21: expanding and collapsing cards.  Toggling a card flips its own
    membership in [expandedCards] and no other card's; the set keeps
    holding each id at most once; and toggling the same card twice brings
    every card back to where it was. *)
Theorem toggleCardExpansion_flips_one (messageId : jsstring)
    (prev : list jsstring) :
  (forall other,
     Set_has other (toggleCardExpansion messageId prev)
     = if jsstring_eqb other messageId then negb (Set_has messageId prev)
       else Set_has other prev)
  /\ (NoDup prev -> NoDup (toggleCardExpansion messageId prev))
  /\ (forall other,
        Set_has other (toggleCardExpansion messageId
                         (toggleCardExpansion messageId prev))
        = Set_has other prev).
Proof.
  assert (Hflip : forall x set other,
             Set_has other (toggleCardExpansion x set)
             = if jsstring_eqb other x then negb (Set_has x set)
               else Set_has other set).
  { intros x set other. unfold toggleCardExpansion.
    destruct (Set_has x set) eqn:Hx.
    - destruct (jsstring_eqb other x) eqn:E.
      + apply JSFacts.jsstring_eqb_eq in E. subst other. simpl.
        destruct (Set_has x (Set_delete x set)) eqn:H; [|reflexivity].
        apply Set_has_spec in H. unfold Set_delete in H.
        apply filter_In in H. destruct H as [_ H].
        assert (jsstring_eqb x x = true) by (now apply JSFacts.jsstring_eqb_eq).
        rewrite H0 in H. discriminate.
      + destruct (Set_has other set) eqn:Ho.
        * apply Set_has_spec. unfold Set_delete. apply filter_In.
          apply Set_has_spec in Ho. split; [exact Ho|].
          destruct (jsstring_eqb x other) eqn:E'; [|reflexivity].
          apply JSFacts.jsstring_eqb_eq in E'. subst.
          assert (jsstring_eqb other other = true)
            by (now apply JSFacts.jsstring_eqb_eq).
          congruence.
        * destruct (Set_has other (Set_delete x set)) eqn:H; [|reflexivity].
          apply Set_has_spec in H. unfold Set_delete in H.
          apply filter_In in H. destruct H as [H _].
          apply Set_has_spec in H. congruence.
    - unfold Set_add. rewrite Hx. unfold Set_has at 1.
      rewrite existsb_app. simpl. rewrite orb_false_r.
      fold (Set_has other set).
      destruct (jsstring_eqb other x) eqn:E; simpl.
      + apply orb_true_r.
      + apply orb_false_r. }
  split; [apply Hflip|]. split.
  - intros Hnd. unfold toggleCardExpansion.
    destruct (Set_has messageId prev) eqn:Hx.
    + now apply NoDup_filter.
    + unfold Set_add. rewrite Hx.
      apply NoDup_rev in Hnd. rewrite <- (rev_involutive (prev ++ [messageId])).
      apply NoDup_rev. rewrite rev_app_distr. simpl. constructor; [|exact Hnd].
      rewrite <- in_rev. intros Hin. apply Set_has_spec in Hin. congruence.
  - intros other. rewrite !Hflip.
    destruct (jsstring_eqb other messageId) eqn:E; [|reflexivity].
    assert (jsstring_eqb messageId messageId = true)
      by (now apply JSFacts.jsstring_eqb_eq).
    rewrite H, negb_involutive.
    apply JSFacts.jsstring_eqb_eq in E. now subst.
Qed.

Lemma toggleCardExpansion_flips_one_witness :
  NoDup (toggleCardExpansion (js "m2") [js "m1"; js "m2"; js "m3"])
  /\ toggleCardExpansion (js "m2") [js "m1"; js "m2"; js "m3"]
     = [js "m1"; js "m3"].
Proof.
  destruct (toggleCardExpansion_flips_one (js "m2") [js "m1"; js "m2"; js "m3"])
    as (_ & H & _).
  split; [|reflexivity]. apply H.
  repeat constructor; simpl; intros Hin;
    repeat (destruct Hin as [Hin|Hin]; [discriminate Hin|]); exact Hin.
Defined.

End DashboardMore.

(** ** More about fetching and the handlers *)
Module HandlersMore.

Import JSArray Dashboard DashboardSpec DashboardView SortFacts SliceFacts
  DashboardFacts DashboardMore.

Ltac frame := unfold same_selection, same_support_form; simpl; repeat split.

(** [fetchMessages] returns, switches the loading flag off, raises no
    alert, and touches neither the selection nor the support form. *)
Lemma fetchMessages_shape (creatorId : jsstring) (network : Network) (s : State) :
  exists s' trace,
    fetchMessages creatorId network s = (s', trace, Normal tt)
    /\ isLoading s' = false
    /\ existsb is_alert trace = false
    /\ same_selection s s'
    /\ same_support_form s s'.
Proof.
  unfold fetchMessages, finally, try_catch, mbind, await, set, get_state,
    throw, ret, emit.
  destruct (GET_feedback_filtered network creatorId _ _) as [r1|e1]; simpl.
  2:{ do 2 eexists. split; [reflexivity|]. frame. }
  destruct (ok r1); simpl.
  2:{ do 2 eexists. split; [reflexivity|]. frame. }
  destruct (response_json r1) as [d1|e1]; simpl.
  2:{ do 2 eexists. split; [reflexivity|]. frame. }
  destruct (GET_feedback_all network creatorId) as [r2|e2]; simpl.
  2:{ do 2 eexists. split; [reflexivity|]. frame. }
  destruct (ok r2); simpl.
  2:{ do 2 eexists. split; [reflexivity|]. frame. }
  destruct (response_json r2) as [d2|e2]; simpl.
  2:{ do 2 eexists. split; [reflexivity|]. frame. }
  destruct (Promise_all _) as [l|e3]; simpl.
  2:{ do 2 eexists. split; [reflexivity|]. frame. }
  do 2 eexists. split; [reflexivity|]. frame.
Qed.

(** X22: [fetchMessages] always ends with the loading flag off, on success
    and on every failure, and it leaves the open tab, the current page,
    the filters and the support form as they were. *)
Theorem fetchMessages_keeps_the_view (creatorId : jsstring) (network : Network)
    (s : State) :
  let run := fetchMessages creatorId network s in
  completion_of run = Normal tt
  /\ isLoading (state_after run) = false
  /\ same_selection s (state_after run)
  /\ same_support_form s (state_after run).
Proof.
  destruct (fetchMessages_shape creatorId network s)
    as (s' & trace & E & Hl & _ & Hsel & Hform).
  simpl. rewrite E. unfold completion_of, state_after. simpl. auto.
Qed.

Lemma row_handler_law (A : Type) (request : Completion (Response A))
    (then_ : M unit) (failed label shown : jsstring) (s : State) :
  (exists s1 t1, then_ s = (s1, t1, Normal tt)
                 /\ existsb is_alert t1 = false
                 /\ same_selection s s1 /\ same_support_form s s1) ->
  refetches_or_alerts (request_failure request failed) s
    (try_catch
       (mbind (await request)
          (fun response =>
             if negb (ok response) then throw (Error failed) else then_))
       (fun error =>
          mbind (emit (console_error label error))
            (fun _ => emit (alert shown))) s)
    (then_ s).
Proof.
  intros (s1 & t1 & E & Hna & Hsel & Hform).
  unfold refetches_or_alerts, request_failure, try_catch, mbind, await, throw,
    emit, completion_of, state_after, trace_of.
  destruct request as [response|e]; simpl.
  - destruct (ok response); simpl.
    + rewrite E. simpl. rewrite Hna.
      split; [reflexivity|]. split; [reflexivity|].
      split; [intros H; now elim H|].
      split; [split; [discriminate | intros H; now elim H]|].
      split; assumption.
    + repeat split; auto; try congruence; try discriminate; frame.
  - repeat split; auto; try congruence; try discriminate; frame.
Qed.

(** X23: marking reviewed, deleting, replying and toggling the visibility
    of a reply behave alike.  Each always returns; when its own request
    goes through it does what [fetchMessages] does and nothing more; when
    the request fails the state is left alone; it alerts exactly when its
    own request failed; and it never changes the tab, the page, the
    filters or the support form. *)
Theorem row_handlers_refetch_or_alert (creatorId : jsstring) (network : Network)
    (s : State) :
  (forall id reviewed,
      refetches_or_alerts
        (request_failure (PATCH_feedback network id reviewed)
           (js "Failed to update message")) s
        (handleMarkReviewed creatorId network id reviewed s)
        (fetchMessages creatorId network s))
  /\ (forall id,
        refetches_or_alerts
          (request_failure (DELETE_feedback network id)
             (js "Failed to delete message")) s
          (handleDelete creatorId network id s)
          (fetchMessages creatorId network s))
  /\ (forall messageId replyText isPublic,
        refetches_or_alerts
          (request_failure (POST_replies network messageId replyText isPublic)
             (js "Failed to submit reply")) s
          (handleReply creatorId network messageId replyText isPublic s)
          (fetchMessages creatorId network s))
  /\ (forall replyId isPublic,
        refetches_or_alerts
          (request_failure (PATCH_replies network replyId isPublic)
             (js "Failed to update reply visibility")) s
          (handleToggleReplyVisibility creatorId network replyId isPublic s)
          (fetchMessages creatorId network s)).
Proof.
  assert (Hf : exists s1 t1,
             fetchMessages creatorId network s = (s1, t1, Normal tt)
             /\ existsb is_alert t1 = false
             /\ same_selection s s1 /\ same_support_form s s1).
  { destruct (fetchMessages_shape creatorId network s)
      as (s' & trace & E & _ & Hna & Hsel & Hform).
    exists s', trace. auto. }
  split; [|split; [|split]]; intros; now apply row_handler_law.
Qed.

Lemma row_handlers_refetch_or_alert_witness :
  refetches_or_alerts
    (Some {| thrown_message := Some (js "Failed to submit reply") |})
    DashboardSample.mixed_state
    (handleReply (js "creator-1") MoreSample.online (js "new") (js "hello") true
       DashboardSample.mixed_state)
    (fetchMessages (js "creator-1") MoreSample.online DashboardSample.mixed_state).
Proof.
  destruct (row_handlers_refetch_or_alert (js "creator-1") MoreSample.online
              DashboardSample.mixed_state) as (_ & _ & H & _).
  apply (H (js "new") (js "hello") true).
Defined.

Lemma count_reactions_readable (network : Network) (m : MessageWithReactions) :
  reactions_readable network m ->
  count_reactions network m
  = Normal (with_reaction_count m (reaction_total network m)).
Proof.
  intros (r & Hr & Hj). unfold count_reactions, reaction_total, bind.
  rewrite Hr. destruct (ok r); [|reflexivity].
  destruct (Hj eq_refl) as (data & ->). reflexivity.
Qed.

Lemma Promise_all_readable (network : Network) (l : list MessageWithReactions) :
  Forall (reactions_readable network) l ->
  Promise_all (map (count_reactions network) l)
  = Normal (map (fun m => with_reaction_count m (reaction_total network m)) l).
Proof.
  induction 1 as [|m l Hm Hl IH]; [reflexivity|]. simpl.
  now rewrite (count_reactions_readable Hm), IH.
Qed.

(** X24: a fetch in which every request goes through.  The filtered list
    becomes [messages] as received; [allMessages] becomes the unfiltered
    list with a reaction count on every message, ranked; no message is
    lost or added; a reactions response that is not ok counts as zero
    reactions; and nothing is logged. *)
Theorem fetchMessages_success (creatorId : jsstring) (network : Network)
    (s : State)
    (r1 r2 : Response (option (list MessageWithReactions)))
    (d1 d2 : option (list MessageWithReactions)) :
  GET_feedback_filtered network creatorId (filter_ s) (productCategoryFilter s)
  = Normal r1 ->
  ok r1 = true ->
  response_json r1 = Normal d1 ->
  GET_feedback_all network creatorId = Normal r2 ->
  ok r2 = true ->
  response_json r2 = Normal d2 ->
  Forall (reactions_readable network) (or_empty d2) ->
  let run := fetchMessages creatorId network s in
  run = (state_after run, [], Normal tt)
  /\ messages (state_after run) = or_empty d1
  /\ allMessages (state_after run)
     = sort compareFn
         (map (fun m => with_reaction_count m (reaction_total network m))
            (or_empty d2))
  /\ Permutation (map id (or_empty d2)) (map id (allMessages (state_after run)))
  /\ Forall (fun m => exists n, reaction_count m = Some n)
       (allMessages (state_after run))
  /\ (forall m response,
        In m (or_empty d2) ->
        GET_reactions network (id m) = Normal response ->
        ok response = false ->
        reaction_total network m = 0%Z).
Proof.
  intros H1 O1 J1 H2 O2 J2 Hr run.
  assert (E : run
              = (setIsLoading false
                   (setAllMessages
                      (sort compareFn
                         (map (fun m => with_reaction_count m
                                          (reaction_total network m))
                            (or_empty d2)))
                      (setMessages (or_empty d1) (setIsLoading true s))),
                 [], Normal tt)).
  { subst run.
    unfold fetchMessages, finally, try_catch, mbind, await, set, get_state,
      throw, ret, emit.
    cbn [filter_ productCategoryFilter setIsLoading].
    rewrite H1. simpl. rewrite O1. simpl. rewrite J1. simpl.
    rewrite H2. simpl. rewrite O2. simpl. rewrite J2. simpl.
    rewrite (Promise_all_readable Hr). reflexivity. }
  rewrite E. unfold state_after. simpl.
  split; [reflexivity|]. split; [reflexivity|]. split; [reflexivity|].
  split; [|split].
  - rewrite <- (sort_perm compareFn). rewrite map_map. simpl.
    reflexivity.
  - apply (Permutation_Forall (sort_perm compareFn _)).
    apply Forall_forall. intros m Hm. apply in_map_iff in Hm.
    destruct Hm as (m0 & <- & _). simpl. eauto.
  - intros m response _ Hg Ho. unfold reaction_total. now rewrite Hg, Ho.
Qed.

Lemma fetchMessages_success_witness :
  map id (allMessages
            (state_after (fetchMessages (js "creator-1") MoreSample.online
                            DashboardSample.mixed_state)))
  = [js "seen"; js "new"; js "answered"]
  /\ map reaction_count
       (allMessages
          (state_after (fetchMessages (js "creator-1") MoreSample.online
                          DashboardSample.mixed_state)))
     = [Some 6%Z; Some 0%Z; Some 0%Z].
Proof.
  destruct (@fetchMessages_success (js "creator-1") MoreSample.online
              DashboardSample.mixed_state
              {| ok := true; response_json := Normal (Some DashboardSample.mixed) |}
              {| ok := true; response_json := Normal (Some DashboardSample.mixed) |}
              (Some DashboardSample.mixed) (Some DashboardSample.mixed)
              eq_refl eq_refl eq_refl eq_refl eq_refl eq_refl)
    as (_ & _ & H & _).
  - repeat constructor; eexists; (split; [reflexivity|]); simpl;
      try discriminate; eauto.
  - rewrite H. split; vm_compute; reflexivity.
Defined.

(** X25: the two lists are fetched one after the other and the first is
    kept whatever happens to the second.  Once the filtered response has
    been read, [messages] is the received list; and a response to the
    unfiltered request that is not ok is skipped in silence: [allMessages]
    stays as it was and nothing is logged. *)
Theorem messages_survive_the_second_request (creatorId : jsstring)
    (network : Network) (s : State)
    (r1 : Response (option (list MessageWithReactions)))
    (d1 : option (list MessageWithReactions)) :
  GET_feedback_filtered network creatorId (filter_ s) (productCategoryFilter s)
  = Normal r1 ->
  ok r1 = true ->
  response_json r1 = Normal d1 ->
  let run := fetchMessages creatorId network s in
  messages (state_after run) = or_empty d1
  /\ (forall r2, GET_feedback_all network creatorId = Normal r2 ->
        ok r2 = false ->
        allMessages (state_after run) = allMessages s /\ trace_of run = [])
  /\ (forall e, GET_feedback_all network creatorId = Throw e ->
        allMessages (state_after run) = allMessages s
        /\ trace_of run = [console_error (js "Error fetching messages:") e]).
Proof.
  intros H1 O1 J1 run. subst run.
  unfold fetchMessages, finally, try_catch, mbind, await, set, get_state,
    throw, ret, emit, state_after, trace_of.
  cbn [filter_ productCategoryFilter setIsLoading].
  rewrite H1. simpl. rewrite O1. simpl. rewrite J1. simpl.
  destruct (GET_feedback_all network creatorId) as [r2|e2]; simpl.
  - destruct (ok r2) eqn:O2; simpl.
    + destruct (response_json r2) as [d2|e2]; simpl.
      * destruct (Promise_all _); simpl;
          (split; [reflexivity|]); split; intros; congruence.
      * split; [reflexivity|]. split; intros; congruence.
    + split; [reflexivity|]. split; [auto | intros; congruence].
  - split; [reflexivity|]. split; [intros; congruence|].
    intros e H. inversion H; subst. auto.
Qed.

Lemma messages_survive_the_second_request_witness :
  messages (state_after
              (fetchMessages (js "creator-1")
                 {| GET_feedback_filtered :=
                      fun _ _ _ => MoreSample.ok_response (Some DashboardSample.mixed);
                    GET_feedback_all := fun _ => MoreSample.not_ok;
                    GET_reactions := fun _ => MoreSample.not_ok;
                    PATCH_feedback := fun _ _ => MoreSample.not_ok;
                    DELETE_feedback := fun _ => MoreSample.not_ok;
                    POST_replies := fun _ _ _ => MoreSample.not_ok;
                    PATCH_replies := fun _ _ => MoreSample.not_ok;
                    POST_creator_feedback := fun _ _ _ => MoreSample.not_ok |}
                 DashboardSample.five_hot_state))
  = DashboardSample.mixed.
Proof.
  destruct (@messages_survive_the_second_request (js "creator-1")
              {| GET_feedback_filtered :=
                   fun _ _ _ => MoreSample.ok_response (Some DashboardSample.mixed);
                 GET_feedback_all := fun _ => MoreSample.not_ok;
                 GET_reactions := fun _ => MoreSample.not_ok;
                 PATCH_feedback := fun _ _ => MoreSample.not_ok;
                 DELETE_feedback := fun _ => MoreSample.not_ok;
                 POST_replies := fun _ _ _ => MoreSample.not_ok;
                 PATCH_replies := fun _ _ => MoreSample.not_ok;
                 POST_creator_feedback := fun _ _ _ => MoreSample.not_ok |}
              DashboardSample.five_hot_state
              {| ok := true; response_json := Normal (Some DashboardSample.mixed) |}
              (Some DashboardSample.mixed) eq_refl eq_refl eq_refl)
    as (H & _).
  exact H.
Defined.

Lemma paginatedMessages_page (s : State) :
  paginatedMessages s = page s (currentPage s).
Proof. reflexivity. Qed.

Lemma totalPages_setCurrentPage (p : Z) (s : State) :
  totalPages (setCurrentPage p s) = totalPages s.
Proof. reflexivity. Qed.

(** X26: no handler moves the current page, so a refetch can leave it
    beyond the last page.  After [handleDelete], the current page is the
    one before, and the dashboard shows an empty page exactly when the
    list that came back has fewer pages than that. *)
Theorem deleting_can_leave_an_empty_page (creatorId : jsstring)
    (network : Network) (id : jsstring) (s : State) :
  (1 <= currentPage s)%Z ->
  let s' := state_after (handleDelete creatorId network id s) in
  currentPage s' = currentPage s
  /\ (paginatedMessages s' = [] <-> (totalPages s' < currentPage s)%Z).
Proof.
  intros Hp s'.
  assert (Hsel : same_selection s s').
  { subst s'. unfold handleDelete. apply row_handler_law.
    destruct (fetchMessages_shape creatorId network s)
      as (s1 & trace & E & _ & Hna & Hsel & Hform).
    exists s1, trace. auto. }
  destruct Hsel as (_ & Hc & _). split; [exact Hc|].
  rewrite paginatedMessages_page, Hc. now apply page_nil_iff.
Qed.

Lemma deleting_can_leave_an_empty_page_witness :
  paginatedMessages
    (state_after (handleDelete (js "creator-1") MoreSample.after_delete (js "m")
                    MoreSample.on_page_two)) = []
  /\ length (filteredMessages
               (state_after (handleDelete (js "creator-1") MoreSample.after_delete
                               (js "m") MoreSample.on_page_two))) = 10%nat.
Proof.
  destruct (@deleting_can_leave_an_empty_page (js "creator-1")
              MoreSample.after_delete (js "m") MoreSample.on_page_two)
    as [_ H].
  - vm_compute. intros H; discriminate H.
  - split; [|vm_compute; reflexivity].
    apply H. vm_compute. reflexivity.
Defined.

(** X27: a draft whose message is empty or whitespace-only is not sent:
    whatever the network would answer, the form only shows
    "Please add some details so we can help effectively.", logs nothing
    and changes nothing else. *)
Theorem blank_draft_is_not_sent (network : Network) (s : State) :
  Spec.blank (supportMessage s) = true ->
  handleSubmitSupportFeedback network s
  = (setSupportError
       (Some (js "Please add some details so we can help effectively.")) s,
     [], Normal tt).
Proof.
  intros Hb. unfold handleSubmitSupportFeedback, mbind, get_state, set.
  simpl. rewrite JSFacts.trim_truthy, Hb. reflexivity.
Qed.

Lemma blank_draft_is_not_sent_witness :
  handleSubmitSupportFeedback MoreSample.online
    (setSupportMessage (js "   ") initial)
  = (setSupportError
       (Some (js "Please add some details so we can help effectively."))
       (setSupportMessage (js "   ") initial),
     [], Normal tt).
Proof.
  apply (@blank_draft_is_not_sent MoreSample.online
           (setSupportMessage (js "   ") initial)).
  reflexivity.
Defined.

(** X28: a submission the server accepts, even with a body that cannot be
    read, shows the thanks, clears the subject and the message, keeps the
    chosen category and the modal as they are, leaves no error, ends with
    the submitting flag off and logs nothing. *)
Theorem accepted_submission_clears_the_draft (network : Network) (s : State)
    (response : Response (option jsstring)) :
  Spec.blank (supportMessage s) = false ->
  POST_creator_feedback network (supportCategory s)
    (or_undefined (trim (supportSubject s))) (trim (supportMessage s))
  = Normal response ->
  ok response = true ->
  let run := handleSubmitSupportFeedback network s in
  run = (state_after run, [], Normal tt)
  /\ supportSuccess (state_after run)
     = Some (js "Thanks! Your note is on its way to the Pulse team.")
  /\ supportSubject (state_after run) = []
  /\ supportMessage (state_after run) = []
  /\ supportError (state_after run) = None
  /\ supportSubmitting (state_after run) = false
  /\ supportCategory (state_after run) = supportCategory s
  /\ isSupportModalOpen (state_after run) = isSupportModalOpen s
  /\ messages (state_after run) = messages s
  /\ same_selection s (state_after run).
Proof.
  intros Hb Hr Ho run. subst run.
  unfold handleSubmitSupportFeedback, finally, try_catch, mbind, await, set,
    get_state, throw, emit, state_after.
  simpl. rewrite JSFacts.trim_truthy, Hb. simpl. rewrite Hr. simpl.
  rewrite Ho. simpl. repeat split.
Qed.

Lemma accepted_submission_clears_the_draft_witness :
  supportMessage
    (state_after (handleSubmitSupportFeedback MoreSample.online MoreSample.draft))
  = []
  /\ supportSuccess
       (state_after (handleSubmitSupportFeedback MoreSample.online MoreSample.draft))
     = Some (js "Thanks! Your note is on its way to the Pulse team.").
Proof.
  destruct (@accepted_submission_clears_the_draft MoreSample.online
              MoreSample.draft
              {| ok := true; response_json := Normal None |}
              eq_refl eq_refl eq_refl)
    as (_ & H1 & _ & H2 & _).
  split; [exact H2 | exact H1].
Defined.

Lemma handleSubmitSupportFeedback_allMessages (network : Network) (s : State) :
  allMessages (state_after (handleSubmitSupportFeedback network s))
  = allMessages s.
Proof.
  unfold handleSubmitSupportFeedback, finally, try_catch, mbind, await, set,
    get_state, throw, emit, state_after.
  simpl. destruct (truthy_string (trim (supportMessage s))); simpl;
    [|reflexivity].
  destruct (POST_creator_feedback network _ _ _) as [r|e]; simpl;
    [|reflexivity].
  destruct (ok r); reflexivity.
Qed.

Lemma row_handler_keeps_ranking (failure : option Thrown) (s : State)
    (run refetch : State * list Effect * Completion unit) :
  refetches_or_alerts failure s run refetch ->
  StronglySorted (before compareFn) (allMessages s) ->
  StronglySorted (before compareFn) (allMessages (state_after refetch)) ->
  StronglySorted (before compareFn) (allMessages (state_after run)).
Proof.
  intros (_ & Hok & Hfail & _) Hs Hr.
  destruct failure as [e|].
  - rewrite Hfail by discriminate. exact Hs.
  - now rewrite Hok.
Qed.

(** X29: the ranking of [allMessages] is an invariant of the dashboard.
    It holds at the first render, and [fetchMessages], the four row
    handlers and the support form all preserve it; so the hot posts are
    always read off a ranked list. *)
Theorem allMessages_stays_ranked (creatorId : jsstring) (network : Network)
    (s : State) :
  StronglySorted (before compareFn) (allMessages initial)
  /\ (StronglySorted (before compareFn) (allMessages s) ->
      StronglySorted (before compareFn)
        (allMessages (state_after (fetchMessages creatorId network s)))
      /\ (forall id reviewed,
            StronglySorted (before compareFn)
              (allMessages
                 (state_after (handleMarkReviewed creatorId network id reviewed s))))
      /\ (forall id,
            StronglySorted (before compareFn)
              (allMessages (state_after (handleDelete creatorId network id s))))
      /\ (forall messageId replyText isPublic,
            StronglySorted (before compareFn)
              (allMessages
                 (state_after
                    (handleReply creatorId network messageId replyText isPublic s))))
      /\ (forall replyId isPublic,
            StronglySorted (before compareFn)
              (allMessages
                 (state_after
                    (handleToggleReplyVisibility creatorId network replyId
                       isPublic s))))
      /\ StronglySorted (before compareFn)
           (allMessages (state_after (handleSubmitSupportFeedback network s)))).
Proof.
  split; [constructor|]. intros Hs.
  assert (Hf : StronglySorted (before compareFn)
                 (allMessages (state_after (fetchMessages creatorId network s)))).
  { now apply fetchMessages_keeps_ranking. }
  assert (Hshape : exists s1 t1,
             fetchMessages creatorId network s = (s1, t1, Normal tt)
             /\ existsb is_alert t1 = false
             /\ same_selection s s1 /\ same_support_form s s1).
  { destruct (fetchMessages_shape creatorId network s)
      as (s' & trace & E & _ & Hna & Hsel & Hform).
    exists s', trace. auto. }
  split; [exact Hf|].
  split; [|split; [|split; [|split]]]; intros;
    try (eapply row_handler_keeps_ranking;
         [apply row_handler_law; exact Hshape | exact Hs | exact Hf]).
  now rewrite handleSubmitSupportFeedback_allMessages.
Qed.

Lemma allMessages_stays_ranked_witness :
  StronglySorted (before compareFn)
    (allMessages
       (state_after (fetchMessages (js "creator-1") MoreSample.online initial))).
Proof.
  destruct (allMessages_stays_ranked (js "creator-1") MoreSample.online initial)
    as [H0 H].
  destruct (H H0) as [Hf _]. exact Hf.
Defined.

Lemma page_firstn_one (s : State) :
  paginatedMessages (setCurrentPage 1 s) = firstn 10 (filteredMessages s).
Proof.
  change (paginatedMessages (setCurrentPage 1 s)) with (page s 1).
  now rewrite page_firstn by lia.
Qed.

(** X30: the page buttons saturate.  From a page within
    [1 .. totalPages], "previous" goes one page back and stays on page 1,
    "next" goes one page on and stays on the last page, and both keep the
    page within range; a tab button opens the tab on its first page, which
    shows the first ten messages of the tab. *)
Theorem page_buttons_saturate (s : State) :
  (1 <= currentPage s <= totalPages s)%Z ->
  currentPage (onClick_previous s)
  = (if (currentPage s =? 1)%Z then 1 else currentPage s - 1)%Z
  /\ currentPage (onClick_next s)
     = (if (currentPage s =? totalPages s)%Z then totalPages s
        else currentPage s + 1)%Z
  /\ (1 <= currentPage (onClick_previous s) <= totalPages (onClick_previous s))%Z
  /\ (1 <= currentPage (onClick_next s) <= totalPages (onClick_next s))%Z
  /\ (forall tab,
        currentPage (onClick_tab tab s) = 1%Z
        /\ activeTab (onClick_tab tab s) = tab
        /\ paginatedMessages (onClick_tab tab s)
           = firstn 10 (filteredMessages (setActiveTab tab s))).
Proof.
  intros H. unfold onClick_previous, onClick_next.
  rewrite !totalPages_setCurrentPage. cbn [currentPage setCurrentPage].
  destruct (Z.eqb_spec (currentPage s) 1), (Z.eqb_spec (currentPage s) (totalPages s));
    (split; [lia|]); (split; [lia|]); (split; [lia|]); (split; [lia|]);
    intros tab; (split; [reflexivity|]); (split; [reflexivity|]);
    unfold onClick_tab; rewrite paginatedMessages_page;
    cbn [currentPage setCurrentPage]; unfold page;
    rewrite page_firstn_one; reflexivity.
Qed.

Lemma page_buttons_saturate_witness :
  currentPage (onClick_next (setCurrentPage 3 DashboardSample.long_state)) = 3%Z
  /\ currentPage (onClick_previous (setCurrentPage 3 DashboardSample.long_state))
     = 2%Z.
Proof.
  destruct (@page_buttons_saturate (setCurrentPage 3 DashboardSample.long_state))
    as (Hp & Hn & _).
  - vm_compute. split; intros H; discriminate H.
  - split; [exact Hn | exact Hp].
Defined.

Lemma old_unanswered_are_pending_witness :
  In (DashboardSample.message_ "new" None 3 false None)
     (inboxMessages DashboardSample.mixed_state)
  /\ reviewed (DashboardSample.message_ "new" None 3 false None) = false
  /\ (created_at (DashboardSample.message_ "new" None 3 false None)
      < 300000000 - 259200000)%Z.
Proof.
  destruct (old_unanswered_are_pending 300000000 DashboardSample.mixed_state)
    as (_ & _ & H).
  apply H. vm_compute. now left.
Defined.

End HandlersMore.

(** ** The ranking of [allMessages] after a fetch *)
Module FetchRanking.

Import JSArray Dashboard DashboardSpec DashboardView SortFacts DashboardFacts
  HandlersMore.

(** What a fetch in which every request goes through stores in
    [allMessages]: the unfiltered list as received, with the reaction
    counts attached, sorted. *)
Lemma fetchMessages_stores_sorted (creatorId : jsstring) (network : Network)
    (s : State)
    (r1 r2 : Response (option (list MessageWithReactions)))
    (d1 d2 : option (list MessageWithReactions)) :
  GET_feedback_filtered network creatorId (filter_ s) (productCategoryFilter s)
  = Normal r1 ->
  ok r1 = true ->
  response_json r1 = Normal d1 ->
  GET_feedback_all network creatorId = Normal r2 ->
  ok r2 = true ->
  response_json r2 = Normal d2 ->
  Forall (reactions_readable network) (or_empty d2) ->
  allMessages (state_after (fetchMessages creatorId network s))
  = sort compareFn
      (map (fun m => with_reaction_count m (reaction_total network m))
         (or_empty d2)).
Proof.
  intros H1 O1 J1 H2 O2 J2 Hr.
  unfold fetchMessages, finally, try_catch, mbind, await, set, get_state,
    throw, ret, emit, state_after.
  cbn [filter_ productCategoryFilter setIsLoading].
  rewrite H1. simpl. rewrite O1. simpl. rewrite J1. simpl.
  rewrite H2. simpl. rewrite O2. simpl. rewrite J2. simpl.
  rewrite (Promise_all_readable Hr). reflexivity.
Qed.

(** C6: after fetching, the [allMessages] list the hot posts are read from
    is ranked: of two positions [i < j], the message at [i] has strictly
    more reactions than the one at [j], or as many and a [created_at] not
    older.  When every request of the fetch goes through, [allMessages] is
    the received unfiltered list with its reaction counts, rearranged into
    that order, with fully tied messages in the order they were received
    and nothing lost or added.  When the fetch stops before storing the
    list, [allMessages] is the list from before, which is ranked when that
    one was, as the empty list of the first render is. *)
Theorem allMessages_ranked_after_fetch (creatorId : jsstring)
    (network : Network) (s : State) :
  let all := allMessages (state_after (fetchMessages creatorId network s)) in
  (ranked (allMessages s) -> ranked all)
  /\ (forall (r1 r2 : Response (option (list MessageWithReactions)))
             (d1 d2 : option (list MessageWithReactions)),
        GET_feedback_filtered network creatorId (filter_ s)
          (productCategoryFilter s) = Normal r1 ->
        ok r1 = true ->
        response_json r1 = Normal d1 ->
        GET_feedback_all network creatorId = Normal r2 ->
        ok r2 = true ->
        response_json r2 = Normal d2 ->
        Forall (reactions_readable network) (or_empty d2) ->
        let fetched :=
          map (fun m => with_reaction_count m (reaction_total network m))
            (or_empty d2) in
        (forall i j a b,
            (i < j)%nat ->
            nth_error all i = Some a ->
            nth_error all j = Some b ->
            (reactions a > reactions b
             \/ (reactions a = reactions b /\ created_at a >= created_at b))%Z)
        /\ (forall c t, filter (tied c t) all = filter (tied c t) fetched)
        /\ Permutation fetched all).
Proof.
  intros all. split.
  - intros H. apply ranked_iff_sorted. apply ranked_iff_sorted in H.
    now apply fetchMessages_keeps_ranking.
  - intros r1 r2 d1 d2 H1 O1 J1 H2 O2 J2 Hr fetched. subst all.
    rewrite (@fetchMessages_stores_sorted creatorId network s r1 r2 d1 d2
               H1 O1 J1 H2 O2 J2 Hr).
    fold fetched.
    destruct (sort_compareFn_ranked fetched) as (Hranked & Hstable & Hperm).
    split; [exact Hranked|]. split; [exact Hstable | exact Hperm].
Qed.

Lemma allMessages_ranked_after_fetch_witness :
  ranked_before
    (with_reaction_count (DashboardSample.message_ "seen" None 2 true (Some [])) 6)
    (with_reaction_count (DashboardSample.message_ "new" None 3 false None) 0)
  /\ Permutation
       (map (fun m => with_reaction_count m (reaction_total MoreSample.online m))
          DashboardSample.mixed)
       (allMessages
          (state_after (fetchMessages (js "creator-1") MoreSample.online
                          DashboardSample.mixed_state))).
Proof.
  destruct (allMessages_ranked_after_fetch (js "creator-1") MoreSample.online
              DashboardSample.mixed_state) as [_ H].
  destruct (H {| ok := true; response_json := Normal (Some DashboardSample.mixed) |}
              {| ok := true; response_json := Normal (Some DashboardSample.mixed) |}
              (Some DashboardSample.mixed) (Some DashboardSample.mixed)
              eq_refl eq_refl eq_refl eq_refl eq_refl eq_refl)
    as (Hranked & _ & Hperm).
  - repeat constructor; eexists; (split; [reflexivity|]); simpl;
      try discriminate; eauto.
  - split; [|exact Hperm].
    apply (Hranked 0%nat 1%nat); [lia | reflexivity | reflexivity].
Defined.

End FetchRanking.
